(** * The layer protocol of the deep-learning-framework notebook

    A shallow embedding of the Python code of
    [notebooks/bonus-dl-framework.ipynb]: the [dense] transformation and
    the two versions of [nn_model], the parameter helper [dense_params],
    the [Dense] layer constructor and the [serial] combinator quoted from
    [stax], together with the parts of [jax.numpy] they call.

    Python exceptions are values of [exn]; functions that can only raise
    live in [result], functions that may also touch process-wide state
    (the generator behind [numpy.random]) live in [py].  Array elements
    are any type with the operations the code uses; the element type of
    the notebook's arrays, [float32], is one instance. *)

From Stdlib Require Import ZArith List Lia SpecFloat.
From stdpp Require Import base list strings gmap.

Set Default Proof Using "Type*".

(** ** Exceptions and results *)

(** Modelled from the spec: [ShapeError] and [CompositionError], the two
    error kinds of the design document; no line of the notebook defines
    or raises them.  They are part of the type so that layers written
    against that document can be composed with [serial].  The other
    constructors are the built-in exceptions the code can raise. *)
Inductive exn : Type :=
| IndexError
| KeyError (k : string)
| TypeError
| ValueError
| ShapeError
| CompositionError (index : nat) (cause : exn).

Inductive result (A : Type) : Type :=
| Ok (a : A)
| Raise (e : exn).
Arguments Ok {A} a.
Arguments Raise {A} e.

Definition result_bind {A B} (f : A → result B) (m : result A) : result B :=
  match m with
  | Ok a => f a
  | Raise e => Raise e
  end.

#[global] Instance result_mret : MRet result := @Ok.
#[global] Instance result_mbind : MBind result := @result_bind.

(** [d[k]] on a dictionary: [KeyError] when the key is absent. *)
Definition getitem {V} (d : gmap string V) (k : string) : result V :=
  match d !! k with
  | Some v => Ok v
  | None => Raise (KeyError k)
  end.

(** [t[-1]] on a tuple: [IndexError] when the tuple is empty. *)
Definition getitem_last {A} (t : list A) : result A :=
  match last t with
  | Some x => Ok x
  | None => Raise IndexError
  end.

(** ** Computations with process-wide state *)

Definition py (world A : Type) : Type := world → result A * world.

Definition py_ret {world A} (a : A) : py world A := λ g, (Ok a, g).

Definition py_bind {world A B} (f : A → py world B) (m : py world A)
  : py world B :=
  λ g, match m g with
       | (Ok a, g') => f a g'
       | (Raise e, g') => (Raise e, g')
       end.

Definition lift {world A} (r : result A) : py world A := λ g, (r, g).

#[global] Instance py_mret {world} : MRet (py world) := @py_ret world.
#[global] Instance py_mbind {world} : MBind (py world) := @py_bind world.

(** A computation is pure when its outcome does not depend on the
    process-wide state and leaves it as it found it. *)
Definition pure_py {world A} (m : py world A) : Prop :=
  ∃ r, ∀ g, m g = (r, g).

(** ** Array elements *)

(** The operations of the element type that [np.dot] and [+] use. *)
Class Scalar (T : Type) := {
  s_zero : T;
  s_add : T → T → T;
  s_mul : T → T → T;
}.

(** What [np.tanh], [np.exp], unary minus, [1 + _] and [1 / _] need in
    addition. *)
Class Transcendental (T : Type) := {
  s_one : T;
  s_neg : T → T;
  s_div : T → T → T;
  s_exp : T → T;
  s_tanh : T → T;
}.

#[global] Instance Z_scalar : Scalar Z :=
  {| s_zero := 0%Z; s_add := Z.add; s_mul := Z.mul |}.

(** *** [float32]

    The elements of the notebook's arrays: IEEE 754 binary32 numbers, 24
    bits of precision, infinities at exponent 128, results rounded to
    nearest, ties to even. *)
Definition float32 : Type := spec_float.

Definition f32_of_Z (z : Z) : float32 := binary_normalize 24 128 z 0 false.
Definition f32_zero : float32 := S754_zero false.
Definition f32_one : float32 := f32_of_Z 1.
Definition f32_nan : float32 := S754_nan.
Definition f32_add : float32 → float32 → float32 := SFadd 24 128.
Definition f32_mul : float32 → float32 → float32 := SFmul 24 128.
Definition f32_div : float32 → float32 → float32 := SFdiv 24 128.
Definition f32_neg : float32 → float32 := SFopp.
Definition f32_ltb : float32 → float32 → bool := SFltb.

(** [np.exp] and [np.tanh] on [float32] are taken as the correctly
    rounded functions, computed in fixed point with 256 fractional bits;
    the kernels of a numerical library may differ from them in the last
    place.  Where the result is out of range the value is the one every
    implementation returns: [exp] gives [+0] below [-104] and infinity
    above [89], [tanh] gives [1] or [-1] from [10] on. *)
Definition fx_bits : Z := 256.
Definition fx_one : Z := (2 ^ fx_bits)%Z.

(** [ln 2], from the series of [1 / (n 2^n)]. *)
Definition fx_ln2 : Z :=
  Eval vm_compute in
    fold_left (λ acc n, (acc + fx_one / (Z.of_nat n * 2 ^ Z.of_nat n))%Z)
      (seq 1 300) 0%Z.

(** [exp r] for a small [r], by its power series. *)
Definition fx_exp (r : Z) : Z :=
  fst (fold_left
         (λ '(sum, term) i,
            let term' := (term * r / (Z.of_nat i * fx_one))%Z in
            ((sum + term')%Z, term'))
         (seq 1 60) (fx_one, fx_one)).

(** [x = k ln 2 + r] with [r] of least magnitude. *)
Definition fx_reduce (x : Z) : Z * Z :=
  let k := ((2 * x + fx_ln2) / (2 * fx_ln2))%Z in
  (k, (x - k * fx_ln2)%Z).

Definition f32_exp (x : float32) : float32 :=
  match x with
  | S754_nan => S754_nan
  | S754_infinity false => S754_infinity false
  | S754_infinity true => f32_zero
  | S754_zero _ => f32_one
  | S754_finite s m e =>
      let x := cond_Zopp s (Z.shiftl (Zpos m) (e + fx_bits)) in
      if (x <? -104 * fx_one)%Z then f32_zero
      else if (89 * fx_one <? x)%Z then S754_infinity false
      else
        let '(k, r) := fx_reduce x in
        binary_normalize 24 128 (fx_exp r) (k - fx_bits) false
  end.

Definition f32_tanh (x : float32) : float32 :=
  match x with
  | S754_nan => S754_nan
  | S754_infinity s => if s then f32_neg f32_one else f32_one
  | S754_zero s => S754_zero s
  | S754_finite s m e =>
      let a := Z.shiftl (Zpos m) (e + fx_bits) in
      if (10 * fx_one <=? a)%Z then (if s then f32_neg f32_one else f32_one)
      else
        let '(k, r) := fx_reduce (2 * a) in
        let e2 := Z.shiftl (fx_exp r) k in
        match (e2 - fx_one)%Z with
        | Zpos n =>
            f32_div (S754_finite s n 0)
                    (S754_finite false (Z.to_pos (e2 + fx_one)) 0)
        | _ => S754_zero s
        end
  end.

#[global] Instance float32_scalar : Scalar float32 :=
  {| s_zero := f32_zero; s_add := f32_add; s_mul := f32_mul |}.

#[global] Instance float32_transcendental : Transcendental float32 :=
  {| s_one := f32_one; s_neg := f32_neg; s_div := f32_div;
     s_exp := f32_exp; s_tanh := f32_tanh |}.

(** ** Arrays *)

(** An array is its shape and its elements in row-major order, as
    [numpy] stores it. *)
Record ndarray (T : Type) : Type := mk_ndarray {
  shape : list nat;
  data : list T;
}.
Arguments mk_ndarray {T} shape data.
Arguments shape {T} n.
Arguments data {T} n.

(** [np.prod(shape)] *)
Definition size_of (s : list nat) : nat := fold_right Nat.mul 1 s.

Definition wf_ndarray {T} (a : ndarray T) : Prop :=
  length (data a) = size_of (shape a).

(** Row-major position of a multi-index. *)
Definition ravel (s idx : list nat) : nat :=
  fold_left (λ acc di, acc * fst di + snd di) (combine s idx) 0.

Definition valid_index (s idx : list nat) : Prop :=
  Forall2 (λ d i, i < d) s idx.

Definition get {T} `{Scalar T} (a : ndarray T) (idx : list nat) : T :=
  nth (ravel (shape a) idx) (data a) s_zero.

Section Numpy.
Context {T : Type} `{Scalar T}.

Definition sum_upto (m : nat) (f : nat → T) : T :=
  fold_left (λ acc t, s_add acc (f t)) (seq 0 m) s_zero.

(** One element of a dot product: the sum over the contracted axis of
    length [m], for row [r] of the left operand and column [j] of block
    [p] of the right operand, whose last axis has length [n]. *)
Definition contract (m n : nat) (da db : list T) (r p j : nat) : T :=
  sum_upto m (λ t, s_mul (nth (r * m + t) da s_zero)
                         (nth ((p * m + t) * n + j) db s_zero)).

(** [np.dot(a, b)]: a scalar operand multiplies; otherwise the last
    axis of [a] is contracted with the only axis of a one-dimensional
    [b], or with the second-to-last axis of [b].  The result has shape
    [a.shape[:-1] + b.shape[:-2] + b.shape[-1:]].  Axes that do not fit
    give [TypeError], as in [jax.numpy]. *)
Definition np_dot (a b : ndarray T) : result (ndarray T) :=
  match rev (shape a), rev (shape b) with
  | [], _ =>
      Ok (mk_ndarray (shape b) (map (s_mul (nth 0 (data a) s_zero)) (data b)))
  | _, [] =>
      Ok (mk_ndarray (shape a)
            (map (λ x, s_mul x (nth 0 (data b) s_zero)) (data a)))
  | m :: rlead, [k] =>
      if m =? k then
        Ok (mk_ndarray (rev rlead)
              (map (λ r, contract m 1 (data a) (data b) r 0 0)
                   (seq 0 (size_of (rev rlead)))))
      else Raise TypeError
  | m :: rlead, n :: k :: rpre =>
      if m =? k then
        Ok (mk_ndarray (rev rlead ++ rev rpre ++ [n])
              (flat_map (λ r,
                 flat_map (λ p,
                   map (λ j, contract m n (data a) (data b) r p j) (seq 0 n))
                   (seq 0 (size_of (rev rpre))))
                 (seq 0 (size_of (rev rlead)))))
      else Raise TypeError
  end.

(** Broadcasting of two shapes, aligned at the last axis and read from
    the last axis backwards: equal lengths agree, a length of one
    stretches, an absent axis counts as one. *)
Fixpoint broadcast_rev (ra rb : list nat) : option (list nat) :=
  match ra, rb with
  | [], r => Some r
  | r, [] => Some r
  | x :: ra', y :: rb' =>
      match broadcast_rev ra' rb' with
      | None => None
      | Some r =>
          if x =? y then Some (x :: r)
          else if x =? 1 then Some (y :: r)
          else if y =? 1 then Some (x :: r)
          else None
      end
  end.

Definition broadcast_shapes (sa sb : list nat) : option (list nat) :=
  option_map (@rev nat) (broadcast_rev (rev sa) (rev sb)).

(** Position, in an operand of reversed shape [rin], of the element
    that lands at position [k] of the broadcast result of reversed
    shape [rout]. *)
Fixpoint src_index (rin rout : list nat) (k : nat) : nat :=
  match rin, rout with
  | d :: rin', n :: rout' =>
      (if d =? 1 then 0 else k mod n) + d * src_index rin' rout' (k / n)
  | _, _ => 0
  end.

(** An arithmetic operator on two arrays: the shapes are broadcast
    ([ValueError] when they cannot be) and [f] is applied element by
    element. *)
Definition np_binop (f : T → T → T) (a b : ndarray T) : result (ndarray T) :=
  match broadcast_shapes (shape a) (shape b) with
  | None => Raise ValueError
  | Some s =>
      Ok (mk_ndarray s
            (map (λ k, f (nth (src_index (rev (shape a)) (rev s) k) (data a) s_zero)
                         (nth (src_index (rev (shape b)) (rev s) k) (data b) s_zero))
                 (seq 0 (size_of s))))
  end.

(** [a + b] on arrays *)
Definition np_add : ndarray T → ndarray T → result (ndarray T) :=
  np_binop s_add.

(** A function applied to every element, as [np.tanh], [np.exp], unary
    minus and arithmetic with a Python number do. *)
Definition np_map (f : T → T) (a : ndarray T) : ndarray T :=
  mk_ndarray (shape a) (map f (data a)).

(** The elements of [np.dot(a, W)] for [a] of shape [lead + (m,)] and a
    matrix [W] of shape [(m, n)], row after row. *)
Definition dot_matrix_data (lead : list nat) (m n : nat) (da db : list T)
  : list T :=
  flat_map (λ r, map (λ j, contract m n da db r 0 j) (seq 0 n))
           (seq 0 (size_of lead)).

(** The elements of [a + b] for [a] with [size] elements and last axis of
    length [n], and a vector [b] of length [n]. *)
Definition add_bias_data (f : T → T → T) (size n : nat) (da db : list T)
  : list T :=
  map (λ k, f (nth k da s_zero) (nth (k mod n) db s_zero)) (seq 0 size).

(** [np.dot(inputs, W) + b] on operands of fitting shapes. *)
Definition dense_out (lead : list nat) (m n : nat) (inputs W b : ndarray T)
  : ndarray T :=
  mk_ndarray (lead ++ [n])
    (add_bias_data s_add (size_of (lead ++ [n])) n
       (dot_matrix_data lead m n (data inputs) (data W)) (data b)).

Context `{Transcendental T}.

Definition np_tanh : ndarray T → ndarray T := np_map s_tanh.
Definition np_exp : ndarray T → ndarray T := np_map s_exp.
Definition np_neg : ndarray T → ndarray T := np_map s_neg.

(** [def logistic(x): return 1 / (1 + np.exp(-x))] *)
Definition logistic (x : ndarray T) : ndarray T :=
  np_map (s_div s_one) (np_map (s_add s_one) (np_exp (np_neg x))).

(** What [logistic] does to one element. *)
Definition logistic_scalar (v : T) : T :=
  s_div s_one (s_add s_one (s_exp (s_neg v))).

(** [def dense(params, x): return np.dot(x, params["w"]) + params["b"]] *)
Definition dense (params : gmap string (ndarray T)) (x : ndarray T)
  : result (ndarray T) :=
  w ← getitem params "w";
  xw ← np_dot x w;
  b ← getitem params "b";
  np_add xw b.

(** The model written with the [dense] helper:
<<
    def nn_model(p, x):
        a1 = np.tanh(dense(p["dense1"], x))
        a2 = logistic(dense(p["dense2"], a1))
        return a2
>> *)
Definition nn_model (p : gmap string (gmap string (ndarray T)))
    (x : ndarray T) : result (ndarray T) :=
  d1 ← getitem p "dense1";
  z1 ← dense d1 x;
  let a1 := np_tanh z1 in
  d2 ← getitem p "dense2";
  z2 ← dense d2 a1;
  let a2 := logistic z2 in
  Ok a2.

(** The model the notebook starts from, with a flat dictionary:
<<
    def nn_model(p, x):
        a1 = np.tanh(np.dot(x, p['w1']) + p['b1'])
        a2 = logistic(np.dot(a1, p['w2']) + p['b2'])
        return a2
>> *)
Definition nn_model_inlined (p : gmap string (ndarray T)) (x : ndarray T)
  : result (ndarray T) :=
  w1 ← getitem p "w1";
  xw ← np_dot x w1;
  b1 ← getitem p "b1";
  z1 ← np_add xw b1;
  let a1 := np_tanh z1 in
  w2 ← getitem p "w2";
  aw ← np_dot a1 w2;
  b2 ← getitem p "b2";
  z2 ← np_add aw b2;
  let a2 := logistic z2 in
  Ok a2.
End Numpy.

(** ** Seeds *)

(** [jax.random.split]: [random_split k] is [random.split(k)], a pair of
    keys; [random_split_n k n] is [random.split(k, n)]. *)
Class PRNG (key : Type) := {
  random_split : key → key * key;
  random_split_n : key → nat → list key;
}.

(** ** Parameter structures *)

(** What a layer's [init_fun] may return as its parameters: an array, a
    tuple or a list of such. *)
#[warnings="-register-all"]
Inductive value (T : Type) : Type :=
| VArr (a : ndarray T)
| VTuple (l : list (value T))
| VList (l : list (value T)).
Arguments VArr {T} a.
Arguments VTuple {T} l.
Arguments VList {T} l.

(** Iteration over a value, as tuple unpacking and [zip] do it: the items
    of a tuple or list, the sub-arrays along the first axis of an array,
    [TypeError] for a zero-dimensional array. *)
Definition iter_value {T} (v : value T) : result (list (value T)) :=
  match v with
  | VTuple l => Ok l
  | VList l => Ok l
  | VArr a =>
      match shape a with
      | [] => Raise TypeError
      | n :: s =>
          Ok (map (λ i, VArr (mk_ndarray s
                     (take (size_of s) (drop (i * size_of s) (data a)))))
                  (seq 0 n))
      end
  end.

(** [W, b = params] *)
Definition unpack2 {T} (v : value T) : result (value T * value T) :=
  items ← iter_value v;
  match items with
  | [W; b] => Ok (W, b)
  | _ => Raise ValueError
  end.

(** An operand of [np.dot] or [+] has to be an array. *)
Definition as_array {T} (v : value T) : result (ndarray T) :=
  match v with
  | VArr a => Ok a
  | _ => Raise TypeError
  end.

(** ** Layers *)

Section Layers.
Context {T : Type} `{Scalar T} {key : Type} `{PRNG key} {world : Type}.

(** A layer is an [(init_fun, apply_fun)] pair.  The keyword arguments
    of [apply_fun] are reduced to the one the code reads, [rng]. *)
Record Layer : Type := mk_layer {
  init_fun : key → list Z → py world (list Z * value T);
  apply_fun : value T → ndarray T → option key → py world (ndarray T);
}.

Definition initializer : Type := key → list Z → py world (ndarray T).

(** The [Dense] constructor:
<<
    def Dense(out_dim, W_init=glorot_normal(), b_init=normal()):
        def init_fun(rng, input_shape):
            output_shape = input_shape[:-1] + (out_dim,)
            k1, k2 = random.split(rng)
            W, b = W_init(k1, (input_shape[-1], out_dim)), b_init(k2, (out_dim,))
            return output_shape, (W, b)
        def apply_fun(params, inputs, **kwargs):
            W, b = params
            return np.dot(inputs, W) + b
        return init_fun, apply_fun
>> *)
Definition Dense_init_fun (out_dim : Z) (W_init b_init : initializer)
    (rng : key) (input_shape : list Z) : py world (list Z * value T) :=
  let output_shape := removelast input_shape ++ [out_dim] in
  let '(k1, k2) := random_split rng in
  in_dim ← lift (getitem_last input_shape);
  W ← W_init k1 [in_dim; out_dim];
  b ← b_init k2 [out_dim];
  mret (output_shape, VTuple [VArr W; VArr b]).

Definition Dense_apply_fun (params : value T) (inputs : ndarray T)
    (rng : option key) : py world (ndarray T) :=
  lift ('(W, b) ← unpack2 params;
        W ← as_array W;
        xw ← np_dot inputs W;
        b ← as_array b;
        np_add xw b).

Definition Dense (out_dim : Z) (W_init b_init : initializer) : Layer :=
  {| init_fun := Dense_init_fun out_dim W_init b_init;
     apply_fun := Dense_apply_fun |}.

(** Modelled from the spec: the elementwise activation layers ([Tanh],
    [Elu], a logistic layer) are imported from [stax] and not quoted in
    the notebook.  The design document describes them as stateless:
    [init] returns the shape unchanged with an empty parameter blob,
    [apply] applies a fixed function to the inputs and ignores the
    parameters. *)
Definition elementwise (fun_ : ndarray T → ndarray T) : Layer :=
  {| init_fun := λ rng input_shape, mret (input_shape, VTuple []);
     apply_fun := λ params inputs rng, mret (fun_ inputs) |}.

(** Modelled from the spec: the two activation layers of the notebook's
    model sketch [(Dense(20), Tanh, Dense(1), Logistic)].  [Tanh] is
    imported from [stax], where it is [elementwise(np.tanh)]; [Logistic]
    is named in the sketch only and is built here from the notebook's
    [logistic]. *)
Definition Tanh `{Transcendental T} : Layer := elementwise np_tanh.
Definition Logistic `{Transcendental T} : Layer := elementwise logistic.

(** The [serial] combinator:
<<
    def serial( *layers):
        nlayers = len(layers)
        init_funs, apply_funs = zip( *layers)
        def init_fun(rng, input_shape):
            params = []
            for init_fun in init_funs:
                rng, layer_rng = random.split(rng)
                input_shape, param = init_fun(layer_rng, input_shape)
                params.append(param)
            return input_shape, params
        def apply_fun(params, inputs, **kwargs):
            rng = kwargs.pop('rng', None)
            rngs = random.split(rng, nlayers) if rng is not None else (None,) * nlayers
            for fun, param, rng in zip(apply_funs, params, rngs):
                inputs = fun(param, inputs, rng=rng, **kwargs)
            return inputs
        return init_fun, apply_fun
>> *)

(** [init_funs, apply_funs = zip( *layers)]: with no layer at all [zip]
    yields nothing and the unpacking into two names raises
    [ValueError]. *)
Definition unzip_layers (layers : list Layer) :
    result (list (key → list Z → py world (list Z * value T)) *
            list (value T → ndarray T → option key → py world (ndarray T))) :=
  match layers with
  | [] => Raise ValueError
  | _ => Ok (map init_fun layers, map apply_fun layers)
  end.

(** The loop of [init_fun], with the three variables it updates. *)
Fixpoint serial_init_loop
    (init_funs : list (key → list Z → py world (list Z * value T)))
    (rng : key) (input_shape : list Z) (params : list (value T))
  : py world (list Z * list (value T)) :=
  match init_funs with
  | [] => mret (input_shape, params)
  | init_fun :: rest =>
      let '(rng', layer_rng) := random_split rng in
      '(input_shape', param) ← init_fun layer_rng input_shape;
      serial_init_loop rest rng' input_shape' (params ++ [param])
  end.

Definition serial_init_fun
    (init_funs : list (key → list Z → py world (list Z * value T)))
    (rng : key) (input_shape : list Z) : py world (list Z * value T) :=
  '(input_shape', params) ← serial_init_loop init_funs rng input_shape [];
  mret (input_shape', VList params).

(** [zip(apply_funs, params, rngs)] stops at the shortest of the three. *)
Definition zip3 {A B C} (a : list A) (b : list B) (c : list C)
  : list (A * B * C) :=
  combine (combine a b) c.

Definition serial_rngs (rng : option key) (nlayers : nat)
  : list (option key) :=
  match rng with
  | Some k => map Some (random_split_n k nlayers)
  | None => repeat None nlayers
  end.

(** The loop of [apply_fun]. *)
Fixpoint serial_apply_loop
    (steps : list ((value T → ndarray T → option key → py world (ndarray T))
                   * value T * option key))
    (inputs : ndarray T) : py world (ndarray T) :=
  match steps with
  | [] => mret inputs
  | (fun_, param, rng) :: rest =>
      inputs' ← fun_ param inputs rng;
      serial_apply_loop rest inputs'
  end.

Definition serial_apply_fun (nlayers : nat)
    (apply_funs : list (value T → ndarray T → option key
                        → py world (ndarray T)))
    (params : value T) (inputs : ndarray T) (rng : option key)
  : py world (ndarray T) :=
  let rngs := serial_rngs rng nlayers in
  items ← lift (iter_value params);
  serial_apply_loop (zip3 apply_funs items rngs) inputs.

Definition serial (layers : list Layer) : result Layer :=
  let nlayers := length layers in
  '(init_funs, apply_funs) ← unzip_layers layers;
  Ok {| init_fun := serial_init_fun init_funs;
        apply_fun := serial_apply_fun nlayers apply_funs |}.

(** The seeds that [serial]'s [init_fun] hands to its layers: layer [i]
    gets the second key of the split of the running seed, and the first
    key of that split is the running seed of layer [i + 1]. *)
Fixpoint layer_rngs (nlayers : nat) (rng : key) : list key :=
  match nlayers with
  | 0 => []
  | S n => snd (random_split rng) :: layer_rngs n (fst (random_split rng))
  end.

(** The running seed after [n] iterations of the loop. *)
Fixpoint running_rng (n : nat) (rng : key) : key :=
  match n with
  | 0 => rng
  | S n' => running_rng n' (fst (random_split rng))
  end.

(** The loop of [init_fun] with the seed of every layer spelled out
    instead of split off on the way. *)
Fixpoint init_with_rngs
    (steps : list ((key → list Z → py world (list Z * value T)) * key))
    (input_shape : list Z) (params : list (value T))
  : py world (list Z * list (value T)) :=
  match steps with
  | [] => mret (input_shape, params)
  | (init_fun, layer_rng) :: rest =>
      '(input_shape', param) ← init_fun layer_rng input_shape;
      init_with_rngs rest input_shape' (params ++ [param])
  end.

(** An initializer that honours the shape it is asked for. *)
Definition respects_shape (init : initializer) : Prop :=
  ∀ k s g, Forall (λ d, (0 ≤ d)%Z) s →
    ∃ a g', init k s g = (Ok a, g') ∧ shape a = map Z.to_nat s
            ∧ wf_ndarray a.

Definition pure_initializer (init : initializer) : Prop :=
  ∀ k s, pure_py (init k s).

(** A layer whose [init_fun] keeps to the layer contract: no
    process-wide state is read or written. *)
Definition pure_init (l : Layer) : Prop :=
  ∀ rng input_shape, pure_py (init_fun l rng input_shape).

(** [np.full(shape, v)], negative lengths taken as zero: an initializer
    that ignores its seed. *)
Definition full (s : list nat) (v : T) : ndarray T :=
  mk_ndarray s (repeat v (size_of s)).

Definition const_init (v : T) : initializer :=
  λ rng s, mret (full (map Z.to_nat s) v).

(** An initializer written against the design document: it refuses a
    negative (wildcard) length with [ShapeError]. *)
Definition checked_init (v : T) : initializer :=
  λ rng s,
    if forallb (λ d, (0 <=? d)%Z) s then mret (full (map Z.to_nat s) v)
    else lift (Raise ShapeError).
End Layers.

Arguments Layer T key world : clear implicits.
Arguments initializer T key world : clear implicits.

(** ** Parameters drawn from the process-wide generator *)

Section DenseParams.
Context {T : Type} {world : Type}.

(** [npr.normal(size=...)]: draws from the generator that [numpy.random]
    keeps in the process, and advances it. *)
Variable npr_normal : list Z → py world (ndarray T).

(** The notebook's first way of making parameters:
<<
    def dense_params(params, name, input_dim, output_dim):
        params[name] = dict()
        params[name]["w"] = npr.normal(size=(input_dim, output_dim))
        params[name]["b"] = npr.normal(size=(output_dim,))
        return params
>> *)
Definition dense_params (params : gmap string (gmap string (ndarray T)))
    (name : string) (input_dim output_dim : Z)
  : py world (gmap string (gmap string (ndarray T))) :=
  let params := <[name := ∅]> params in
  w ← npr_normal [input_dim; output_dim];
  layer ← lift (getitem params name);
  let params := <[name := <["w" := w]> layer]> params in
  b ← npr_normal [output_dim];
  layer ← lift (getitem params name);
  let params := <[name := <["b" := b]> layer]> params in
  mret params.
End DenseParams.

(** ** Concrete seeds and generators for running the code *)

(** Seeds as paths in the binary tree of splits. *)
#[global] Instance path_prng : PRNG positive :=
  {| random_split := λ k, (xO k, xI k);
     random_split_n := λ k n, map (λ i, Pos.add k (Pos.of_succ_nat i)) (seq 0 n) |}.

(** A splitter on numbers: the children of [k] are [2 * k] and
    [2 * k + 1].  No two keys have a child in common, but the seed 0 is
    its own first child. *)
#[global] Instance binary_prng : PRNG nat :=
  {| random_split := λ k, (2 * k, 2 * k + 1);
     random_split_n := λ k n, map (λ i, k * n + i) (seq 0 n) |}.

(** A layer that records the seed its [init_fun] is called with, as the
    length of its parameter array. *)
Definition seed_probe : Layer Z nat unit :=
  {| init_fun := λ rng input_shape, mret (input_shape, VArr (full [rng] 0%Z));
     apply_fun := λ params inputs rng, mret inputs |}.

(** A generator whose state is a counter and whose draws are filled with
    the counter's value. *)
Definition counter_normal : list Z → py Z (ndarray Z) :=
  λ s g, (Ok (mk_ndarray (map Z.to_nat s)
                (repeat g (size_of (map Z.to_nat s)))), (g + 1)%Z).

(** The notebook's model sketch on [float32], with initializers that
    fill with zeros, seeds that are paths and a counter as process
    state. *)
Definition demo_layers : list (Layer float32 positive Z) :=
  [Dense 20 (const_init f32_zero) (const_init f32_zero); Tanh;
   Dense 1 (const_init f32_zero) (const_init f32_zero); Logistic].

Definition demo_model : Layer float32 positive Z :=
  {| init_fun := serial_init_fun (map init_fun demo_layers);
     apply_fun := serial_apply_fun (length demo_layers)
                    (map apply_fun demo_layers) |}.

(** An activation in front of a dense layer whose initializers refuse a
    wildcard. *)
Definition checked_layers : list (Layer Z positive unit) :=
  [elementwise (np_map Z.succ);
   Dense 20 (checked_init 0%Z) (checked_init 0%Z)].

Definition checked_model : Layer Z positive unit :=
  {| init_fun := serial_init_fun (map init_fun checked_layers);
     apply_fun := serial_apply_fun (length checked_layers)
                    (map apply_fun checked_layers) |}.

(** A small model on integers: two dense layers of widths 3 and 1, with
    successor and negation as activations. *)
Definition small_layers : list (Layer Z positive unit) :=
  [Dense 3 (const_init 1%Z) (const_init 5%Z); elementwise (np_map Z.succ);
   Dense 1 (const_init 2%Z) (const_init 0%Z); elementwise (np_map Z.opp)].

Definition small_model : Layer Z positive unit :=
  {| init_fun := serial_init_fun (map init_fun small_layers);
     apply_fun := serial_apply_fun (length small_layers)
                    (map apply_fun small_layers) |}.

Definition small_params : value Z :=
  VList [VTuple [VArr (mk_ndarray [2; 3] [1; 1; 1; 1; 1; 1]%Z);
                 VArr (mk_ndarray [3] [5; 5; 5]%Z)];
         VTuple [];
         VTuple [VArr (mk_ndarray [3; 1] [2; 2; 2]%Z);
                 VArr (mk_ndarray [1] [0]%Z)];
         VTuple []].

(** Parameters for the two versions of [nn_model]: the same four arrays,
    nested under ["dense1"] and ["dense2"], and flat. *)
Definition demo_params : gmap string (gmap string (ndarray float32)) :=
  {[ "dense1" := {[ "w" := full [2; 2] f32_one; "b" := full [2] f32_zero ]};
     "dense2" := {[ "w" := full [2; 1] f32_one; "b" := full [1] f32_zero ]} ]}.

Definition demo_params_flat : gmap string (ndarray float32) :=
  {[ "w1" := full [2; 2] f32_one; "b1" := full [2] f32_zero;
     "w2" := full [2; 1] f32_one; "b2" := full [1] f32_zero ]}.

(** ** Shape contracts *)

Section ShapeContract.
Context {T : Type} `{Scalar T} {key : Type} `{PRNG key} {world : Type}.

(** A function on arrays that keeps the shape of its argument, as
    [np.tanh] and the other elementwise functions do. *)
Definition shape_preserving (f : ndarray T → ndarray T) : Prop :=
  ∀ a, shape (f a) = shape a.

(** A layer takes a last axis of length [d] to a last axis of length
    [d']: on every input shape ending in [d] its [init_fun] returns that
    shape with [d'] in the last place, and its [apply_fun], given the
    parameters of that call and no [rng], takes every array whose last
    axis has length [d] to an array of the same leading axes whose last
    axis has length [d'], leaving the process state alone. *)
Definition layer_maps (l : Layer T key world) (d d' : Z) : Prop :=
  ∀ rng lead g,
    ∃ params g',
      init_fun l rng (lead ++ [d]) g = (Ok (lead ++ [d'], params), g')
      ∧ ∀ x bs g'',
          shape x = bs ++ [Z.to_nat d] →
          ∃ y, apply_fun l params x None g'' = (Ok y, g'')
               ∧ shape y = bs ++ [Z.to_nat d'].

(** A sequence of layers in which the length each layer produces is the
    length the next one takes. *)
Inductive layers_map : list (Layer T key world) → Z → Z → Prop :=
| layers_map_nil d : layers_map [] d d
| layers_map_cons l ls d d' d'' :
    layer_maps l d d' → layers_map ls d' d'' → layers_map (l :: ls) d d''.

(** The calls that [serial]'s [init_fun] makes, one layer after the
    other: each layer is called with the second key of the split of the
    running seed, on the shape the layer before it returned and in the
    state that layer left; [params] collects what the layers returned. *)
Fixpoint serial_init_steps (layers : list (Layer T key world)) (rng : key)
    (input_shape : list Z) (g : world) (params : list (value T))
    (output_shape : list Z) (g' : world) : Prop :=
  match layers, params with
  | [], [] => output_shape = input_shape ∧ g' = g
  | l :: layers', p :: params' =>
      ∃ shape1 g1,
        init_fun l (snd (random_split rng)) input_shape g
          = (Ok (shape1, p), g1)
        ∧ serial_init_steps layers' (fst (random_split rng)) shape1 g1
            params' output_shape g'
  | _, _ => False
  end.
End ShapeContract.

(** A generator that returns an array of the shape it is asked for. *)
Definition npr_respects_shape {T world}
    (npr_normal : list Z → py world (ndarray T)) : Prop :=
  ∀ s g, Forall (λ d, (0 ≤ d)%Z) s →
    ∃ a g', npr_normal s g = (Ok a, g') ∧ shape a = map Z.to_nat s.

(** The parameters [serial]'s [init_fun] returns for a model of two
    dense layers with an activation behind each. *)
Definition two_dense_params {T} (w1 b1 w2 b2 : ndarray T) : value T :=
  VList [VTuple [VArr w1; VArr b1]; VTuple [];
         VTuple [VArr w2; VArr b2]; VTuple []].

(** A generator that fills every draw with [v] and counts its draws. *)
Definition const_normal {T} (v : T) : list Z → py Z (ndarray T) :=
  λ s g, (Ok (full (map Z.to_nat s) v), (g + 1)%Z).

(** The small model on integers in two halves. *)
Definition small_front : list (Layer Z positive unit) :=
  [Dense 3 (const_init 1%Z) (const_init 5%Z); elementwise (np_map Z.succ)].

Definition small_back : list (Layer Z positive unit) :=
  [Dense 1 (const_init 2%Z) (const_init 0%Z); elementwise (np_map Z.opp)].

Definition small_front_model : Layer Z positive unit :=
  {| init_fun := serial_init_fun (map init_fun small_front);
     apply_fun := serial_apply_fun (length small_front)
                    (map apply_fun small_front) |}.

Definition small_back_model : Layer Z positive unit :=
  {| init_fun := serial_init_fun (map init_fun small_back);
     apply_fun := serial_apply_fun (length small_back)
                    (map apply_fun small_back) |}.

Definition small_nested_model : Layer Z positive unit :=
  {| init_fun := serial_init_fun
                   (map init_fun [small_front_model; small_back_model]);
     apply_fun := serial_apply_fun 2
                    (map apply_fun [small_front_model; small_back_model]) |}.

(** The model sketch on [float32] with weights filled with ones and
    biases filled with zeros. *)
Definition ones_layers : list (Layer float32 positive unit) :=
  [Dense 20 (const_init f32_one) (const_init f32_zero); Tanh;
   Dense 1 (const_init f32_one) (const_init f32_zero); Logistic].

Definition ones_model : Layer float32 positive unit :=
  {| init_fun := serial_init_fun (map init_fun ones_layers);
     apply_fun := serial_apply_fun (length ones_layers)
                    (map apply_fun ones_layers) |}.

Definition ones_params : value float32 :=
  two_dense_params (full [41; 20] f32_one) (full [20] f32_zero)
    (full [20; 1] f32_one) (full [1] f32_zero).

(** What the model returns on [ones_params] for a table of 1000 rows
    filled with [x]. *)
Definition ones_output (x : float32) : ndarray float32 :=
  logistic
    (dense_out [1000] 20 1
       (np_tanh (dense_out [1000] 41 20 (full [1000; 41] x)
                   (full [41; 20] f32_one) (full [20] f32_zero)))
       (full [20; 1] f32_one) (full [1] f32_zero)).

(** * Properties *)

(** ** The array operations on small inputs *)

Example np_dot_2x3_3x2 :
  np_dot (mk_ndarray [2; 3] [1; 2; 3; 4; 5; 6]%Z)
         (mk_ndarray [3; 2] [1; 0; 0; 1; 1; 1]%Z)
  = Ok (mk_ndarray [2; 2] [4; 5; 10; 11]%Z).
Proof. reflexivity. Qed.

Example np_dot_rank3 :
  np_dot (mk_ndarray [2; 1; 2] [1; 2; 3; 4]%Z)
         (mk_ndarray [2; 3] [1; 0; 2; 0; 1; 3]%Z)
  = Ok (mk_ndarray [2; 1; 3] [1; 2; 8; 3; 4; 18]%Z).
Proof. reflexivity. Qed.

Example np_dot_mismatch :
  np_dot (mk_ndarray [2; 3] [1; 2; 3; 4; 5; 6]%Z)
         (mk_ndarray [2; 2] [1; 0; 0; 1]%Z)
  = Raise TypeError.
Proof. reflexivity. Qed.

Example np_add_bias :
  np_add (mk_ndarray [2; 2] [4; 5; 10; 11]%Z) (mk_ndarray [2] [100; 200]%Z)
  = Ok (mk_ndarray [2; 2] [104; 205; 110; 211]%Z).
Proof. reflexivity. Qed.

Example np_add_column :
  np_add (mk_ndarray [2; 1] [1; 2]%Z) (mk_ndarray [3] [10; 20; 30]%Z)
  = Ok (mk_ndarray [2; 3] [11; 21; 31; 12; 22; 32]%Z).
Proof. reflexivity. Qed.

Example np_add_mismatch :
  np_add (mk_ndarray [2; 2] [4; 5; 10; 11]%Z) (mk_ndarray [3] [1; 2; 3]%Z)
  = Raise ValueError.
Proof. reflexivity. Qed.

Ltac py_unfold :=
  unfold mbind, mret, py_mbind, py_mret, py_bind, py_ret,
    result_mbind, result_mret, result_bind, lift in *.

Section LayerFacts.
Context {T : Type} `{Scalar T} {key : Type} `{PRNG key} {world : Type}.

Local Abbreviation layer := (Layer T key world).
Local Abbreviation init_t := (key → list Z → py world (list Z * value T))%type.
Local Abbreviation apply_t :=
  (value T → ndarray T → option key → py world (ndarray T))%type.

(** ** [float32] on known values *)

(** [exp] at 1, -1, 0.5, -20, 10, 88, -100 and -103.5. *)
Example f32_exp_values :
  map f32_exp
    [S754_finite false 8388608 (-23); S754_finite true 8388608 (-23);
     S754_finite false 8388608 (-24); S754_finite true 10485760 (-19);
     S754_finite false 10485760 (-20); S754_finite false 11534336 (-17);
     S754_finite true 13107200 (-17); S754_finite true 13565952 (-17)]
  = [S754_finite false 11401300 (-22); S754_finite false 12343986 (-25);
     S754_finite false 13830476 (-23); S754_finite false 9282611 (-52);
     S754_finite false 11277550 (-9); S754_finite false 16286391 103;
     S754_finite false 27 (-149); S754_finite false 1 (-149)].
Proof. vm_compute. reflexivity. Qed.

(** [tanh] at 1, 0.5, -0.25, 9, 9.5, 0.001, 3 and 41. *)
Example f32_tanh_values :
  map f32_tanh
    [S754_finite false 8388608 (-23); S754_finite false 8388608 (-24);
     S754_finite true 8388608 (-25); S754_finite false 9437184 (-20);
     S754_finite false 9961472 (-20); S754_finite false 8589935 (-33);
     S754_finite false 12582912 (-22); S754_finite false 10747904 (-18)]
  = [S754_finite false 12777430 (-24); S754_finite false 15506079 (-25);
     S754_finite true 16436213 (-26); S754_finite false 16777215 (-24);
     S754_finite false 8388608 (-23); S754_finite false 8589932 (-33);
     S754_finite false 16694249 (-24); S754_finite false 8388608 (-23)].
Proof. vm_compute. reflexivity. Qed.

(** [1 + exp(-20)] is [1], and so is [logistic] at 20; at -200 it is 0. *)
Example f32_logistic_saturates :
  f32_add f32_one (f32_exp (f32_of_Z (-20))) = f32_one
  ∧ logistic_scalar (f32_of_Z 20) = f32_one
  ∧ logistic_scalar (f32_of_Z (-200)) = f32_zero.
Proof. vm_compute. auto. Qed.

(** ** The constructor *)

Lemma serial_cons (l : layer) (ls : list layer) :
  serial (l :: ls)
  = Ok {| init_fun := serial_init_fun (map init_fun (l :: ls));
          apply_fun := serial_apply_fun (length (l :: ls))
                         (map apply_fun (l :: ls)) |}.
Proof. reflexivity. Qed.

Lemma serial_ok_inv (layers : list layer) (L : layer) :
  serial layers = Ok L →
  layers ≠ [] ∧
  L = {| init_fun := serial_init_fun (map init_fun layers);
         apply_fun := serial_apply_fun (length layers)
                        (map apply_fun layers) |}.
Proof.
  destruct layers as [|l ls]; [discriminate|].
  rewrite serial_cons. intros [= <-]. split; [discriminate | reflexivity].
Qed.

(** The two loops, taken by themselves, do nothing on an empty
    sequence. *)
Lemma serial_loops_empty rng rng' input_shape (inputs : ndarray T) (g : world) :
  serial_init_fun (T:=T) [] rng input_shape g = (Ok (input_shape, VList []), g)
  ∧ serial_apply_fun 0 [] (VList []) inputs rng' g = (Ok inputs, g).
Proof. split; reflexivity. Qed.

(** ** The loop of [init_fun] *)

Lemma running_rng_S n (rng : key) :
  running_rng (S n) rng = fst (random_split (running_rng n rng)).
Proof.
  revert rng. induction n as [|n IH]; intros rng; [reflexivity|].
  change (running_rng (S (S n)) rng)
    with (running_rng (S n) (fst (random_split rng))).
  rewrite IH. reflexivity.
Qed.

Lemma layer_rngs_length n (rng : key) : length (layer_rngs n rng) = n.
Proof.
  revert rng. induction n as [|n IH]; intros rng; simpl; [|rewrite IH]; reflexivity.
Qed.

Lemma layer_rngs_lookup n (rng : key) i :
  i < n →
  layer_rngs n rng !! i = Some (snd (random_split (running_rng i rng))).
Proof.
  revert rng i. induction n as [|n IH]; intros rng i Hi; [lia|].
  destruct i as [|i]; simpl; [reflexivity|].
  apply IH. lia.
Qed.

Lemma serial_init_loop_rngs (fs : list init_t) rng input_shape params g :
  serial_init_loop fs rng input_shape params g
  = init_with_rngs (combine fs (layer_rngs (length fs) rng))
      input_shape params g.
Proof.
  revert rng input_shape params g.
  induction fs as [|f fs IH]; intros rng input_shape params g; [reflexivity|].
  simpl. destruct (random_split rng) as [rng' layer_rng]; simpl.
  py_unfold. destruct (f layer_rng input_shape g) as [[[s p]|e] g']; [|reflexivity].
  apply IH.
Qed.

Lemma serial_init_loop_app (fs1 fs2 : list init_t) rng input_shape params g :
  serial_init_loop (fs1 ++ fs2) rng input_shape params g
  = match serial_init_loop fs1 rng input_shape params g with
    | (Ok (input_shape', params'), g') =>
        serial_init_loop fs2 (running_rng (length fs1) rng)
          input_shape' params' g'
    | (Raise e, g') => (Raise e, g')
    end.
Proof.
  revert rng input_shape params g.
  induction fs1 as [|f fs1 IH]; intros rng input_shape params g; [reflexivity|].
  simpl. destruct (random_split rng) as [rng' layer_rng]; simpl.
  py_unfold. destruct (f layer_rng input_shape g) as [[[s p]|e] g']; [|reflexivity].
  apply IH.
Qed.

Lemma serial_init_loop_length (fs : list init_t) rng input_shape params g
    input_shape' params' g' :
  serial_init_loop fs rng input_shape params g
    = (Ok (input_shape', params'), g') →
  length params' = length params + length fs.
Proof.
  revert rng input_shape params g.
  induction fs as [|f fs IH]; intros rng input_shape params g.
  - intros [= _ <- _]. simpl. lia.
  - simpl. destruct (random_split rng) as [rng' layer_rng]; simpl.
    py_unfold. destruct (f layer_rng input_shape g) as [[[s p]|e] g1]; [|discriminate].
    intros E. apply IH in E. rewrite E, length_app. simpl. lia.
Qed.

Lemma serial_init_loop_pure (fs : list init_t) rng input_shape params :
  Forall (λ f : init_t, ∀ rng s, pure_py (f rng s)) fs →
  pure_py (serial_init_loop fs rng input_shape params).
Proof.
  intros Hfs. revert rng input_shape params.
  induction Hfs as [|f fs Hf Hfs IH]; intros rng input_shape params.
  - exists (Ok (input_shape, params)). reflexivity.
  - simpl. destruct (random_split rng) as [rng' layer_rng]; simpl.
    destruct (Hf layer_rng input_shape) as [[[s p]|e] Hr].
    + destruct (IH rng' s (params ++ [p])) as [r Hr'].
      exists r. intros g. py_unfold. rewrite Hr. apply Hr'.
    + exists (Raise e). intros g. py_unfold. rewrite Hr. reflexivity.
Qed.

(** ** The loop of [apply_fun] *)

Lemma serial_apply_loop_app
    (steps1 steps2 : list (apply_t * value T * option key)) inputs g :
  serial_apply_loop (steps1 ++ steps2) inputs g
  = match serial_apply_loop steps1 inputs g with
    | (Ok inputs', g') => serial_apply_loop steps2 inputs' g'
    | (Raise e, g') => (Raise e, g')
    end.
Proof.
  revert inputs g.
  induction steps1 as [|[[f p] r] steps1 IH]; intros inputs g; [reflexivity|].
  simpl. py_unfold. destruct (f p inputs r g) as [[x|e] g']; [|reflexivity].
  apply IH.
Qed.
End LayerFacts.

Section DenseFacts.
Context {T : Type} `{Scalar T} {key : Type} `{PRNG key} {world : Type}.

Local Abbreviation layer := (Layer T key world).
Local Abbreviation initializer' := (initializer T key world).

(** What [Dense]'s [init_fun] does on a non-empty shape, call by call. *)
Lemma Dense_init_fun_run (out_dim : Z) (W_init b_init : initializer')
    rng lead d (g : world) :
  Dense_init_fun out_dim W_init b_init rng (lead ++ [d]) g
  = match W_init (fst (random_split rng)) [d; out_dim] g with
    | (Ok W, g1) =>
        match b_init (snd (random_split rng)) [out_dim] g1 with
        | (Ok b, g2) => (Ok (lead ++ [out_dim], VTuple [VArr W; VArr b]), g2)
        | (Raise e, g2) => (Raise e, g2)
        end
    | (Raise e, g1) => (Raise e, g1)
    end.
Proof.
  unfold Dense_init_fun, getitem_last.
  rewrite removelast_last, last_snoc.
  destruct (random_split rng) as [k1 k2]; simpl.
  py_unfold.
  destruct (W_init k1 [d; out_dim] g) as [[W|e] g1]; [|reflexivity].
  destruct (b_init k2 [out_dim] g1) as [[b|e] g2]; reflexivity.
Qed.

Lemma Dense_init_fun_empty (out_dim : Z) (W_init b_init : initializer')
    rng (g : world) :
  Dense_init_fun out_dim W_init b_init rng [] g = (Raise IndexError, g).
Proof.
  unfold Dense_init_fun. destruct (random_split rng) as [k1 k2]. reflexivity.
Qed.

Lemma Dense_pure_init (out_dim : Z) (W_init b_init : initializer') :
  pure_initializer W_init → pure_initializer b_init →
  pure_init (Dense out_dim W_init b_init).
Proof.
  intros HW Hb rng input_shape. simpl.
  destruct input_shape as [|d0 rest] using rev_ind.
  - exists (Raise IndexError). intros g. apply Dense_init_fun_empty.
  - destruct (HW (fst (random_split rng)) [d0; out_dim]) as [[W|e] HWr].
    + destruct (Hb (snd (random_split rng)) [out_dim]) as [[b|e] Hbr].
      * exists (Ok (rest ++ [out_dim], VTuple [VArr W; VArr b])).
        intros g. rewrite Dense_init_fun_run, HWr, Hbr. reflexivity.
      * exists (Raise e). intros g.
        rewrite Dense_init_fun_run, HWr, Hbr. reflexivity.
    + exists (Raise e). intros g. rewrite Dense_init_fun_run, HWr. reflexivity.
Qed.

Lemma elementwise_pure_init (f : ndarray T → ndarray T) :
  pure_init (elementwise (key:=key) (world:=world) f).
Proof. intros rng s. exists (Ok (s, VTuple [])). reflexivity. Qed.

Lemma const_init_respects_shape (v : T) :
  respects_shape (const_init (key:=key) (world:=world) v).
Proof.
  intros k s g _. exists (full (map Z.to_nat s) v), g.
  split; [reflexivity|]. split; [reflexivity|].
  unfold wf_ndarray, full. simpl. apply repeat_length.
Qed.

Lemma const_init_pure (v : T) :
  pure_initializer (const_init (key:=key) (world:=world) v).
Proof. intros k s. exists (Ok (full (map Z.to_nat s) v)). reflexivity. Qed.

(** C5: for every seed and every input shape whose last entry [in_dim]
    is a concrete length, [Dense(out_dim)]'s [init_fun] returns the input
    shape with its last entry replaced by [out_dim], and as parameters
    the pair [(W, b)] where [W] is what [W_init] returns for the first
    key of the split of the seed and shape [(in_dim, out_dim)], and [b]
    is what [b_init] returns for the second key of that same split and
    shape [(out_dim,)]; with initializers that honour the shape they are
    asked for, [W] has shape [(in_dim, out_dim)] and [b] has shape
    [(out_dim,)]. *)
Theorem Dense_init_fun_shapes (out_dim : Z) (W_init b_init : initializer')
    (rng : key) (lead : list Z) (in_dim : Z) (g : world) :
  respects_shape W_init → respects_shape b_init →
  (0 ≤ out_dim)%Z → (0 ≤ in_dim)%Z →
  ∃ W b g1 g2,
    W_init (fst (random_split rng)) [in_dim; out_dim] g = (Ok W, g1)
    ∧ b_init (snd (random_split rng)) [out_dim] g1 = (Ok b, g2)
    ∧ init_fun (Dense out_dim W_init b_init) rng (lead ++ [in_dim]) g
      = (Ok (lead ++ [out_dim], VTuple [VArr W; VArr b]), g2)
    ∧ shape W = [Z.to_nat in_dim; Z.to_nat out_dim]
    ∧ shape b = [Z.to_nat out_dim].
Proof.
  intros HW Hb Hout Hin.
  destruct (HW (fst (random_split rng)) [in_dim; out_dim] g)
    as (W & g1 & EW & SW & _); [repeat constructor; assumption|].
  destruct (Hb (snd (random_split rng)) [out_dim] g1)
    as (b & g2 & Eb & Sb & _); [repeat constructor; assumption|].
  exists W, b, g1, g2. repeat split; try assumption.
  simpl. rewrite Dense_init_fun_run, EW, Eb. reflexivity.
Qed.

(** C2, as the code has it: [Dense]'s [init_fun] does not look at the
    last entry of the input shape.  With the wildcard [-1] there it asks
    [W_init] for shape [(-1, out_dim)]; an exception of [W_init] or
    [b_init] goes to the caller as it is, and when both return, the
    result is the shape with [out_dim] in the last place and the two
    arrays as parameters. *)
Theorem Dense_init_fun_wildcard (out_dim : Z) (W_init b_init : initializer')
    (rng : key) (lead : list Z) (g : world) :
  (∀ e g1,
      W_init (fst (random_split rng)) [(-1)%Z; out_dim] g = (Raise e, g1) →
      init_fun (Dense out_dim W_init b_init) rng (lead ++ [(-1)%Z]) g
      = (Raise e, g1))
  ∧ (∀ W g1 e g2,
      W_init (fst (random_split rng)) [(-1)%Z; out_dim] g = (Ok W, g1) →
      b_init (snd (random_split rng)) [out_dim] g1 = (Raise e, g2) →
      init_fun (Dense out_dim W_init b_init) rng (lead ++ [(-1)%Z]) g
      = (Raise e, g2))
  ∧ (∀ W g1 b g2,
      W_init (fst (random_split rng)) [(-1)%Z; out_dim] g = (Ok W, g1) →
      b_init (snd (random_split rng)) [out_dim] g1 = (Ok b, g2) →
      init_fun (Dense out_dim W_init b_init) rng (lead ++ [(-1)%Z]) g
      = (Ok (lead ++ [out_dim], VTuple [VArr W; VArr b]), g2)).
Proof.
  repeat split.
  - intros e g1 EW. simpl. rewrite Dense_init_fun_run, EW. reflexivity.
  - intros W g1 e g2 EW Eb. simpl.
    rewrite Dense_init_fun_run, EW, Eb. reflexivity.
  - intros W g1 b g2 EW Eb. simpl.
    rewrite Dense_init_fun_run, EW, Eb. reflexivity.
Qed.
End DenseFacts.

Section SerialFacts.
Context {T : Type} `{Scalar T} {key : Type} `{PRNG key} {world : Type}.

Local Abbreviation layer := (Layer T key world).

(** C9: [serial()] with no layer raises [ValueError] at
    [init_funs, apply_funs = zip( *layers)]; no layer is returned. *)
Theorem serial_empty_raises :
  serial (T:=T) (key:=key) (world:=world) [] = Raise ValueError.
Proof. reflexivity. Qed.

(** C1, as the code has it: when the layers before position [i] have
    run and layer [i]'s [init_fun] (or [apply_fun]) raises [e], the
    combined [init_fun] (or [apply_fun]) raises that same [e], with the
    process-wide state as the failing call left it: the exception is not
    wrapped, no position is attached, nothing is called again. *)
Theorem serial_propagates_layer_error (layers : list layer) (L : layer) :
  serial layers = Ok L →
  (∀ pre l post rng input_shape g input_shape' params' g' e g'',
      layers = pre ++ l :: post →
      serial_init_loop (map init_fun pre) rng input_shape [] g
        = (Ok (input_shape', params'), g') →
      init_fun l (snd (random_split (running_rng (length pre) rng)))
        input_shape' g' = (Raise e, g'') →
      init_fun L rng input_shape g = (Raise e, g''))
  ∧ (∀ params items rng inputs g pre fun_ param r post inputs' g' e g'',
      iter_value params = Ok items →
      zip3 (map apply_fun layers) items (serial_rngs rng (length layers))
        = pre ++ (fun_, param, r) :: post →
      serial_apply_loop pre inputs g = (Ok inputs', g') →
      fun_ param inputs' r g' = (Raise e, g'') →
      apply_fun L params inputs rng g = (Raise e, g'')).
Proof.
  intros HL. apply serial_ok_inv in HL as [_ ->]. split.
  - intros pre l post rng input_shape g input_shape' params' g' e g''
      -> Hpre Hl.
    simpl. unfold serial_init_fun. py_unfold.
    rewrite map_app, serial_init_loop_app, Hpre. simpl.
    rewrite length_map.
    destruct (random_split (running_rng (length pre) rng)) as [r1 r2].
    simpl in *. py_unfold. rewrite Hl. reflexivity.
  - intros params items rng inputs g pre fun_ param r post inputs' g' e g''
      Hit Hzip Hpre Hf.
    simpl. unfold serial_apply_fun. py_unfold.
    rewrite Hit, Hzip, serial_apply_loop_app, Hpre. simpl.
    py_unfold. rewrite Hf. reflexivity.
Qed.

(** C7: when every layer's [init_fun] keeps to the layer contract (it
    neither reads nor writes process-wide state), so does the combined
    [init_fun]: called twice with the same seed and input shape, in
    whatever state of the process, it returns the same output shape and
    the same parameters, and it leaves the state untouched. *)
Theorem serial_init_deterministic (layers : list layer) (L : layer) :
  Forall pure_init layers →
  serial layers = Ok L →
  ∀ rng input_shape (g1 g2 : world),
    fst (init_fun L rng input_shape g1) = fst (init_fun L rng input_shape g2)
    ∧ snd (init_fun L rng input_shape g1) = g1.
Proof.
  intros Hpure HL rng input_shape g1 g2.
  apply serial_ok_inv in HL as [_ ->]. simpl.
  assert (Hloop : pure_py (serial_init_loop (map init_fun layers) rng input_shape [])).
  { apply serial_init_loop_pure. rewrite Forall_map.
    eapply Forall_impl; [exact Hpure|]. intros l Hl. exact Hl. }
  destruct Hloop as [r Hr]. unfold serial_init_fun. py_unfold.
  rewrite !Hr. destruct r as [[s ps]|e]; split; reflexivity.
Qed.

(** C8, as the code has it: the combined [init_fun] splits the running
    seed once for each layer; layer [i] is called with the second key of
    the split of the running seed after [i] iterations, and the first
    key goes on as the running seed.  When the second key of a split
    determines the seed that was split, and the running seeds of two
    different iterations differ, no two layers are called with the same
    seed. *)
Theorem serial_init_seeds (layers : list layer) (L : layer) :
  serial layers = Ok L →
  (∀ rng input_shape g,
      init_fun L rng input_shape g
      = ('(s, ps) ← init_with_rngs
             (combine (map init_fun layers) (layer_rngs (length layers) rng))
             input_shape [];
         mret (s, VList ps)) g)
  ∧ (∀ rng i, i < length layers →
      layer_rngs (length layers) rng !! i
      = Some (snd (random_split (running_rng i rng)))
      ∧ running_rng (S i) rng = fst (random_split (running_rng i rng)))
  ∧ (∀ rng,
      (∀ k k' : key, snd (random_split k) = snd (random_split k') → k = k') →
      (∀ i j, i < j < length layers → running_rng i rng ≠ running_rng j rng) →
      NoDup (layer_rngs (length layers) rng)).
Proof.
  intros HL. apply serial_ok_inv in HL as [_ ->]. repeat split.
  - intros rng input_shape g. simpl. unfold serial_init_fun. py_unfold.
    rewrite serial_init_loop_rngs, length_map. reflexivity.
  - apply layer_rngs_lookup. assumption.
  - apply running_rng_S.
  - intros rng Hinj Hrun. apply NoDup_alt. intros i j k Hi Hj.
    assert (Hli : i < length layers).
    { apply lookup_lt_Some in Hi. rewrite layer_rngs_length in Hi. exact Hi. }
    assert (Hlj : j < length layers).
    { apply lookup_lt_Some in Hj. rewrite layer_rngs_length in Hj. exact Hj. }
    rewrite layer_rngs_lookup in Hi by assumption.
    rewrite layer_rngs_lookup in Hj by assumption.
    assert (E : running_rng i rng = running_rng j rng).
    { apply Hinj. congruence. }
    destruct (Nat.lt_trichotomy i j) as [Hlt|[Heq|Hgt]]; [|assumption|].
    + exfalso. apply (Hrun i j); [lia | assumption].
    + exfalso. apply (Hrun j i); [lia | symmetry; assumption].
Qed.
End SerialFacts.

(** ** Arrays: positions, dot products and broadcasting *)

Lemma size_of_app (s1 s2 : list nat) :
  size_of (s1 ++ s2) = size_of s1 * size_of s2.
Proof.
  unfold size_of. induction s1 as [|d s1 IH]; simpl; [lia|].
  rewrite IH. lia.
Qed.

Lemma size_of_rev (s : list nat) : size_of (rev s) = size_of s.
Proof.
  induction s as [|d s IH]; [reflexivity|].
  simpl rev. rewrite size_of_app, IH. unfold size_of. simpl. lia.
Qed.

Lemma valid_index_length (s idx : list nat) :
  valid_index s idx → length s = length idx.
Proof. apply Forall2_length. Qed.

Lemma ravel_snoc (s idx : list nat) (d i : nat) :
  length s = length idx →
  ravel (s ++ [d]) (idx ++ [i]) = ravel s idx * d + i.
Proof.
  intros Hlen. unfold ravel.
  assert (E : combine (s ++ [d]) (idx ++ [i]) = combine s idx ++ [(d, i)]).
  { revert idx Hlen. induction s as [|x s IH]; intros [|y idx] Hlen;
      simpl in *; try discriminate; [reflexivity|].
    rewrite IH by lia. reflexivity. }
  rewrite E, fold_left_app. reflexivity.
Qed.

Lemma ravel_bound (s idx : list nat) :
  valid_index s idx → ravel s idx < size_of s.
Proof.
  intros Hv. unfold ravel.
  assert (G : ∀ acc,
    fold_left (λ acc di, acc * fst di + snd di) (combine s idx) acc
    < (acc + 1) * size_of s).
  { induction Hv as [|d i s idx Hi Hv IH]; intros acc.
    - unfold size_of. simpl. lia.
    - simpl. specialize (IH (acc * d + i)).
      change (fold_right Nat.mul 1 (d :: s)) with (d * size_of s).
      unfold size_of in *. nia. }
  specialize (G 0). lia.
Qed.

Lemma nth_flat_map_blocks {A B} (f : A → list B) (n : nat) (l : list A)
    (r j : nat) (a0 : A) (b0 : B) :
  (∀ x, length (f x) = n) → r < length l → j < n →
  nth (r * n + j) (flat_map f l) b0 = nth j (f (nth r l a0)) b0.
Proof.
  intros Hlen. revert r. induction l as [|x l IH]; intros r Hr Hj.
  - simpl in Hr. lia.
  - simpl flat_map. destruct r as [|r].
    + simpl. rewrite app_nth1 by (rewrite Hlen; lia). reflexivity.
    + rewrite app_nth2 by (rewrite Hlen; lia).
      rewrite Hlen. replace (S r * n + j - n) with (r * n + j) by lia.
      simpl in Hr. simpl nth. apply IH; lia.
Qed.

Lemma nth_map_seq {B} (f : nat → B) (n k : nat) (b0 : B) :
  k < n → nth k (map f (seq 0 n)) b0 = f k.
Proof.
  intros Hk. rewrite (nth_indep _ b0 (f 0)) by (rewrite length_map, length_seq; lia).
  rewrite (map_nth f (seq 0 n) 0 k), seq_nth by lia. reflexivity.
Qed.

Lemma src_index_same (rs : list nat) (k : nat) :
  k < size_of rs → src_index rs rs k = k.
Proof.
  revert k. induction rs as [|d rs IH]; intros k Hk.
  - unfold size_of in Hk. simpl in *. lia.
  - change (size_of (d :: rs)) with (d * size_of rs) in Hk.
    simpl. assert (Hd : d ≠ 0) by (intros ->; lia).
    rewrite IH by (apply Nat.Div0.div_lt_upper_bound; lia).
    pose proof (Nat.div_mod_eq k d) as E.
    destruct (Nat.eqb_spec d 1) as [->|Hne]; [|lia].
    rewrite Nat.div_1_r. lia.
Qed.

Lemma src_index_last (n : nat) (rs : list nat) (k : nat) :
  src_index [n] (n :: rs) k = k mod n.
Proof.
  simpl. destruct (Nat.eqb_spec n 1) as [->|Hne]; [|lia].
  rewrite Nat.mod_1_r. lia.
Qed.

Lemma broadcast_rev_nil_r (ra : list nat) : broadcast_rev ra [] = Some ra.
Proof. destruct ra; reflexivity. Qed.

Lemma broadcast_shapes_bias (lead : list nat) (n : nat) :
  broadcast_shapes (lead ++ [n]) [n] = Some (lead ++ [n]).
Proof.
  unfold broadcast_shapes. rewrite rev_app_distr. simpl.
  rewrite broadcast_rev_nil_r, Nat.eqb_refl. simpl.
  rewrite rev_involutive. reflexivity.
Qed.

Section ArrayFacts.
Context {T : Type} `{Scalar T}.

Lemma sum_upto_ext (m : nat) (f g : nat → T) :
  (∀ t, t < m → f t = g t) → sum_upto m f = sum_upto m g.
Proof.
  intros Hfg. unfold sum_upto.
  assert (G : ∀ l acc, (∀ t, In t l → f t = g t) →
    fold_left (λ acc t, s_add acc (f t)) l acc
    = fold_left (λ acc t, s_add acc (g t)) l acc).
  { induction l as [|t l IH]; intros acc Hl; [reflexivity|].
    simpl. rewrite (Hl t) by (left; reflexivity).
    apply IH. intros t' Ht'. apply Hl. right. exact Ht'. }
  apply G. intros t Ht. apply Hfg. apply in_seq in Ht. lia.
Qed.

Lemma np_dot_matrix (a W : ndarray T) (lead : list nat) (m n : nat) :
  shape a = lead ++ [m] → shape W = [m; n] →
  np_dot a W
  = Ok (mk_ndarray (lead ++ [n]) (dot_matrix_data lead m n (data a) (data W))).
Proof.
  intros Ha HW. unfold np_dot. rewrite Ha, HW, rev_app_distr. simpl.
  rewrite Nat.eqb_refl, rev_involutive. unfold dot_matrix_data.
  do 2 f_equal. apply flat_map_ext. intros r. apply app_nil_r.
Qed.

Lemma dot_matrix_data_length lead m n da db :
  length (dot_matrix_data lead m n da db) = size_of lead * n.
Proof.
  unfold dot_matrix_data. generalize (size_of lead) as N. intros N.
  rewrite (flat_map_constant_length (c:=n)).
  - rewrite length_seq. lia.
  - intros r _. rewrite length_map, length_seq. reflexivity.
Qed.

Lemma dot_matrix_data_nth lead m n da db r j :
  r < size_of lead → j < n →
  nth (r * n + j) (dot_matrix_data lead m n da db) s_zero
  = contract m n da db r 0 j.
Proof.
  intros Hr Hj. unfold dot_matrix_data.
  rewrite (nth_flat_map_blocks _ n _ r j 0) ; try assumption.
  - rewrite seq_nth by assumption. simpl. apply nth_map_seq. assumption.
  - intros x. rewrite length_map, length_seq. reflexivity.
  - rewrite length_seq. assumption.
Qed.

Lemma np_binop_bias (f : T → T → T) (a b : ndarray T) (lead : list nat) (n : nat) :
  shape a = lead ++ [n] → shape b = [n] →
  np_binop f a b
  = Ok (mk_ndarray (lead ++ [n])
          (add_bias_data f (size_of (lead ++ [n])) n (data a) (data b))).
Proof.
  intros Ha Hb. unfold np_binop. rewrite Ha, Hb, broadcast_shapes_bias.
  do 2 f_equal. unfold add_bias_data. apply map_ext_in. intros k Hk.
  apply in_seq in Hk.
  rewrite src_index_same by (rewrite size_of_rev; lia).
  rewrite rev_app_distr. simpl rev. simpl app.
  rewrite src_index_last. reflexivity.
Qed.

Lemma add_bias_data_length f size n da db :
  length (add_bias_data f size n da db) = size.
Proof. unfold add_bias_data. rewrite length_map, length_seq. reflexivity. Qed.

Lemma add_bias_data_nth f size n da db k :
  k < size →
  nth k (add_bias_data f size n da db) s_zero
  = f (nth k da s_zero) (nth (k mod n) db s_zero).
Proof.
  intros Hk. unfold add_bias_data.
  apply (nth_map_seq (λ k, f (nth k da s_zero) (nth (k mod n) db s_zero))).
  assumption.
Qed.
End ArrayFacts.

Section DenseApply.
Context {T : Type} `{Scalar T} {key : Type} `{PRNG key} {world : Type}.

Lemma Dense_apply_fun_run (W b inputs : ndarray T) (rng : option key)
    (g : world) :
  Dense_apply_fun (VTuple [VArr W; VArr b]) inputs rng g
  = (xw ← np_dot inputs W; np_add xw b, g).
Proof.
  unfold Dense_apply_fun. py_unfold. simpl.
  destruct (np_dot inputs W); reflexivity.
Qed.

Lemma dense_out_wf lead m n inputs W b :
  wf_ndarray (dense_out lead m n inputs W b).
Proof. unfold wf_ndarray, dense_out. simpl. apply add_bias_data_length. Qed.

Lemma np_dot_add_fitting (inputs W b : ndarray T) (lead : list nat) (m n : nat) :
  shape inputs = lead ++ [m] → shape W = [m; n] → shape b = [n] →
  (xw ← np_dot inputs W; np_add xw b) = Ok (dense_out lead m n inputs W b).
Proof.
  intros Hx HW Hb. rewrite (np_dot_matrix inputs W lead m n Hx HW).
  py_unfold. unfold np_add.
  rewrite (np_binop_bias s_add _ b lead n); [reflexivity | reflexivity | exact Hb].
Qed.

Lemma Dense_apply_fun_fitting (inputs W b : ndarray T) (lead : list nat)
    (m n : nat) (rng : option key) (g : world) :
  shape inputs = lead ++ [m] → shape W = [m; n] → shape b = [n] →
  Dense_apply_fun (VTuple [VArr W; VArr b]) inputs rng g
  = (Ok (dense_out lead m n inputs W b), g).
Proof.
  intros Hx HW Hb.
  rewrite Dense_apply_fun_run, (np_dot_add_fitting inputs W b lead m n); auto.
Qed.

Lemma dense_out_get lead m n (inputs W b : ndarray T) idx j :
  shape inputs = lead ++ [m] → shape W = [m; n] → shape b = [n] →
  valid_index lead idx → j < n →
  get (dense_out lead m n inputs W b) (idx ++ [j])
  = s_add (sum_upto m (λ t, s_mul (get inputs (idx ++ [t])) (get W [t; j])))
          (get b [j]).
Proof.
  intros Hx HW Hb Hidx Hj. unfold get at 1. unfold dense_out at 1 2. simpl.
  pose proof (valid_index_length _ _ Hidx) as Hlen.
  pose proof (ravel_bound _ _ Hidx) as Hr.
  rewrite ravel_snoc by assumption.
  set (r := ravel lead idx) in *.
  rewrite add_bias_data_nth by (rewrite size_of_app; unfold size_of at 2; simpl; nia).
  rewrite dot_matrix_data_nth by assumption.
  replace ((r * n + j) mod n) with j
    by (rewrite Nat.add_comm, Nat.Div0.mod_add, Nat.mod_small; lia).
  f_equal.
  - unfold contract. apply sum_upto_ext. intros t Ht.
    unfold get. rewrite Hx, HW, ravel_snoc by assumption.
    reflexivity.
  - unfold get. rewrite Hb. reflexivity.
Qed.

(** C6: for every parameter pair [(W, b)] and every input,
    [Dense]'s [apply_fun] is [np.dot(inputs, W) + b], exceptions
    included.  When the inputs have any rank at least one with last axis
    of length [m], [W] is an [m] by [n] matrix and [b] a vector of length
    [n], the result has the shape of the inputs with [n] in the last
    place, and its entry at leading indices [idx] and column [j] is the
    sum over the last axis of [inputs[idx, t] * W[t, j]], plus [b[j]]:
    the same bias for every choice of the leading indices. *)
Theorem Dense_apply_fun_spec (out_dim : Z) (W_init b_init : initializer T key world)
    (W b inputs : ndarray T) (rng : option key) (g : world) :
  apply_fun (Dense out_dim W_init b_init) (VTuple [VArr W; VArr b]) inputs rng g
  = (xw ← np_dot inputs W; np_add xw b, g)
  ∧ ∀ (lead : list nat) (m n : nat),
      shape inputs = lead ++ [m] → shape W = [m; n] → shape b = [n] →
      ∃ out,
        apply_fun (Dense out_dim W_init b_init)
          (VTuple [VArr W; VArr b]) inputs rng g = (Ok out, g)
        ∧ shape out = lead ++ [n]
        ∧ wf_ndarray out
        ∧ ∀ idx j, valid_index lead idx → j < n →
            get out (idx ++ [j])
            = s_add (sum_upto m
                       (λ t, s_mul (get inputs (idx ++ [t])) (get W [t; j])))
                    (get b [j]).
Proof.
  split; [apply Dense_apply_fun_run|].
  intros lead m n Hx HW Hb. exists (dense_out lead m n inputs W b).
  split; [apply Dense_apply_fun_fitting; assumption|].
  split; [reflexivity|]. split; [apply dense_out_wf|].
  intros idx j Hidx Hj. apply dense_out_get; assumption.
Qed.
End DenseApply.

Section ModelFacts.
Context {T : Type} `{Scalar T} `{Transcendental T}.

(** C10: on a dictionary [p] whose entries ["dense1"] and ["dense2"]
    hold the arrays [w1, b1] and [w2, b2] under ["w"] and ["b"], the
    model written with [dense] returns, for every input [x], what the
    original model [logistic(np.dot(tanh(np.dot(x, w1) + b1), w2) + b2)]
    returns on a flat dictionary with the same four arrays: the same
    array, or the same exception when shapes do not fit. *)
Theorem nn_model_refines_inlined
    (p : gmap string (gmap string (ndarray T)))
    (d1 d2 q : gmap string (ndarray T)) (w1 b1 w2 b2 x : ndarray T) :
  p !! "dense1" = Some d1 → p !! "dense2" = Some d2 →
  d1 !! "w" = Some w1 → d1 !! "b" = Some b1 →
  d2 !! "w" = Some w2 → d2 !! "b" = Some b2 →
  q !! "w1" = Some w1 → q !! "b1" = Some b1 →
  q !! "w2" = Some w2 → q !! "b2" = Some b2 →
  nn_model p x = nn_model_inlined q x
  ∧ nn_model p x
    = (xw ← np_dot x w1; z1 ← np_add xw b1;
       aw ← np_dot (np_tanh z1) w2; z2 ← np_add aw b2;
       Ok (logistic z2)).
Proof.
  intros Hd1 Hd2 Hw1 Hb1 Hw2 Hb2 Hq1 Hq2 Hq3 Hq4.
  unfold nn_model, nn_model_inlined, dense, getitem. py_unfold.
  rewrite Hd1, Hq1. cbv beta iota. rewrite Hw1. cbv beta iota.
  destruct (np_dot x w1) as [xw|e]; [|split; reflexivity].
  rewrite Hb1, Hq2. cbv beta iota.
  destruct (np_add xw b1) as [z1|e]; [|split; reflexivity].
  rewrite Hd2, Hq3. cbv beta iota. rewrite Hw2. cbv beta iota.
  destruct (np_dot (np_tanh z1) w2) as [aw|e]; [|split; reflexivity].
  rewrite Hb2, Hq4. cbv beta iota.
  destruct (np_add aw b2) as [z2|e]; split; reflexivity.
Qed.
End ModelFacts.

Section SerialRuns.
Context {T : Type} `{Scalar T} {key : Type} `{PRNG key} {world : Type}.

Local Abbreviation initializer' := (initializer T key world).
Local Abbreviation init_t := (key → list Z → py world (list Z * value T))%type.
Local Abbreviation apply_t :=
  (value T → ndarray T → option key → py world (ndarray T))%type.

Lemma serial_init_loop_cons (f : init_t) (fs : list init_t) rng input_shape
    params (g : world) :
  serial_init_loop (f :: fs) rng input_shape params g
  = match f (snd (random_split rng)) input_shape g with
    | (Ok (input_shape', param), g') =>
        serial_init_loop fs (fst (random_split rng)) input_shape'
          (params ++ [param]) g'
    | (Raise e, g') => (Raise e, g')
    end.
Proof.
  simpl. destruct (random_split rng) as [rng' layer_rng]. simpl. py_unfold.
  destruct (f layer_rng input_shape g) as [[[s p]|e] g']; reflexivity.
Qed.

Lemma serial_apply_loop_cons (f : apply_t) param r
    (steps : list (apply_t * value T * option key)) inputs (g : world) :
  serial_apply_loop ((f, param, r) :: steps) inputs g
  = match f param inputs r g with
    | (Ok inputs', g') => serial_apply_loop steps inputs' g'
    | (Raise e, g') => (Raise e, g')
    end.
Proof. reflexivity. Qed.

(** Every run of the combined [init_fun] that returns, returns a list
    with one entry for each layer. *)
Lemma serial_init_params_length (layers : list (Layer T key world)) L rng
    input_shape (g : world) output_shape params g' :
  serial layers = Ok L →
  init_fun L rng input_shape g = (Ok (output_shape, params), g') →
  ∃ ps, params = VList ps ∧ length ps = length layers.
Proof.
  intros HL. apply serial_ok_inv in HL as [_ ->]. simpl.
  unfold serial_init_fun. py_unfold.
  destruct (serial_init_loop (map init_fun layers) rng input_shape [] g)
    as [[[s ps]|e] g1] eqn:E; [|discriminate].
  intros [= _ <- _]. exists ps. split; [reflexivity|].
  apply serial_init_loop_length in E. rewrite E, length_map. reflexivity.
Qed.

Lemma Dense_init_fun_ok (out_dim : Z) (W_init b_init : initializer')
    (rng : key) (lead : list Z) (in_dim : Z) (g : world) :
  respects_shape W_init → respects_shape b_init →
  (0 ≤ out_dim)%Z → (0 ≤ in_dim)%Z →
  ∃ W b g',
    Dense_init_fun out_dim W_init b_init rng (lead ++ [in_dim]) g
    = (Ok (lead ++ [out_dim], VTuple [VArr W; VArr b]), g')
    ∧ shape W = [Z.to_nat in_dim; Z.to_nat out_dim]
    ∧ shape b = [Z.to_nat out_dim].
Proof.
  intros HW Hb Hout Hin.
  destruct (HW (fst (random_split rng)) [in_dim; out_dim] g)
    as (W & g1 & EW & SW & _); [repeat constructor; assumption|].
  destruct (Hb (snd (random_split rng)) [out_dim] g1)
    as (b & g2 & Eb & Sb & _); [repeat constructor; assumption|].
  exists W, b, g2. repeat split; try assumption.
  rewrite Dense_init_fun_run, EW, Eb. reflexivity.
Qed.

(** The initialisation of a model of two dense layers of widths 20 and
    1, each followed by an activation, on 41 features. *)
Lemma two_dense_init (W_init1 b_init1 W_init2 b_init2 : initializer')
    (act1 act2 : ndarray T → ndarray T) (batch : Z) (rng : key) (g : world) :
  respects_shape W_init1 → respects_shape b_init1 →
  respects_shape W_init2 → respects_shape b_init2 →
  ∃ W1 b1 W2 b2 g',
    serial_init_fun
      (map init_fun [Dense 20 W_init1 b_init1; elementwise act1;
                     Dense 1 W_init2 b_init2; elementwise act2])
      rng [batch; 41%Z] g
    = (Ok ([batch; 1%Z],
           VList [VTuple [VArr W1; VArr b1]; VTuple [];
                  VTuple [VArr W2; VArr b2]; VTuple []]), g')
    ∧ shape W1 = [41; 20] ∧ shape b1 = [20]
    ∧ shape W2 = [20; 1] ∧ shape b2 = [1].
Proof.
  intros HW1 Hb1 HW2 Hb2.
  destruct (Dense_init_fun_ok 20 W_init1 b_init1 (snd (random_split rng))
              [batch] 41 g HW1 Hb1) as (W1 & b1 & g1 & E1 & SW1 & Sb1);
    [lia | lia |].
  set (rng1 := fst (random_split rng)).
  set (rng2 := fst (random_split rng1)).
  destruct (Dense_init_fun_ok 1 W_init2 b_init2 (snd (random_split rng2))
              [batch] 20 g1 HW2 Hb2) as (W2 & b2 & g2 & E2 & SW2 & Sb2);
    [lia | lia |].
  exists W1, b1, W2, b2, g2. repeat split; try assumption.
  unfold serial_init_fun. py_unfold. cbn [map init_fun Dense elementwise].
  rewrite serial_init_loop_cons.
  change [batch; 41%Z] with ([batch] ++ [41%Z]). rewrite E1.
  rewrite serial_init_loop_cons. py_unfold.
  rewrite serial_init_loop_cons. fold rng1 rng2.
  rewrite E2.
  rewrite serial_init_loop_cons. py_unfold. reflexivity.
Qed.
End SerialRuns.

Section ShapeInference.
Context {T : Type} `{Scalar T} {key : Type} `{PRNG key} {world : Type}.

(** C4: for [serial(Dense(20), act1, Dense(1), act2)] with any two
    activation layers, [init_fun] on input shape [(batch, 41)] returns
    the output shape [(batch, 1)] and a list of four parameter entries in
    the order of the layers: [(W1, b1)] with [W1] of shape [(41, 20)] and
    [b1] of shape [(20,)], the empty tuple of the first activation,
    [(W2, b2)] with [W2] of shape [(20, 1)] and [b2] of shape [(1,)], and
    the empty tuple of the second activation. *)
Theorem serial_init_fun_shapes
    (W_init1 b_init1 W_init2 b_init2 : initializer T key world)
    (act1 act2 : ndarray T → ndarray T) (batch : Z) (rng : key) (g : world) :
  respects_shape W_init1 → respects_shape b_init1 →
  respects_shape W_init2 → respects_shape b_init2 →
  ∃ L W1 b1 W2 b2 g',
    serial [Dense 20 W_init1 b_init1; elementwise act1;
            Dense 1 W_init2 b_init2; elementwise act2] = Ok L
    ∧ init_fun L rng [batch; 41%Z] g
      = (Ok ([batch; 1%Z],
             VList [VTuple [VArr W1; VArr b1]; VTuple [];
                    VTuple [VArr W2; VArr b2]; VTuple []]), g')
    ∧ shape W1 = [41; 20] ∧ shape b1 = [20]
    ∧ shape W2 = [20; 1] ∧ shape b2 = [1].
Proof.
  intros HW1 Hb1 HW2 Hb2.
  destruct (two_dense_init W_init1 b_init1 W_init2 b_init2 act1 act2
              batch rng g HW1 Hb1 HW2 Hb2)
    as (W1 & b1 & W2 & b2 & g' & E & S1 & S2 & S3 & S4).
  eexists. exists W1, b1, W2, b2, g'.
  split; [apply serial_cons|]. split; [exact E|]. auto.
Qed.
End ShapeInference.

(** ** The two-layer model end to end *)

Section EndToEnd.
Context {T : Type} `{Scalar T} `{Transcendental T}
        {key : Type} `{PRNG key} {world : Type}.

Lemma logistic_data (z : ndarray T) :
  data (logistic z) = map logistic_scalar (data z).
Proof.
  unfold logistic, np_exp, np_neg, np_map. cbn [data].
  rewrite !map_map. reflexivity.
Qed.

Lemma two_dense_apply (out1 out2 : Z)
    (W_init1 b_init1 W_init2 b_init2 : initializer T key world)
    (W1 b1 W2 b2 X : ndarray T) (lead : list nat) (m h o : nat) (g : world) :
  shape X = lead ++ [m] →
  shape W1 = [m; h] → shape b1 = [h] → shape W2 = [h; o] → shape b2 = [o] →
  serial_apply_fun 4
    (map apply_fun [Dense out1 W_init1 b_init1; Tanh;
                    Dense out2 W_init2 b_init2; Logistic])
    (two_dense_params W1 b1 W2 b2) X None g
  = (Ok (logistic (dense_out lead h o
                     (np_tanh (dense_out lead m h X W1 b1)) W2 b2)), g).
Proof.
  intros SX SW1 Sb1 SW2 Sb2.
  unfold serial_apply_fun, two_dense_params. py_unfold.
  cbn [iter_value map apply_fun Dense Tanh Logistic elementwise length
       serial_rngs repeat zip3 combine].
  rewrite serial_apply_loop_cons.
  rewrite (Dense_apply_fun_fitting X W1 b1 lead m h) by assumption.
  rewrite serial_apply_loop_cons. py_unfold.
  rewrite serial_apply_loop_cons.
  rewrite (Dense_apply_fun_fitting _ W2 b2 lead h o)
    by (assumption || reflexivity).
  rewrite serial_apply_loop_cons. py_unfold. reflexivity.
Qed.

Lemma two_dense_preactivation (W1 b1 W2 b2 X : ndarray T)
    (lead : list nat) (m h o : nat) :
  shape X = lead ++ [m] →
  shape W1 = [m; h] → shape b1 = [h] → shape W2 = [h; o] → shape b2 = [o] →
  (xw ← np_dot X W1; z1 ← np_add xw b1;
   aw ← np_dot (np_tanh z1) W2; np_add aw b2)
  = Ok (dense_out lead h o (np_tanh (dense_out lead m h X W1 b1)) W2 b2).
Proof.
  intros SX SW1 Sb1 SW2 Sb2.
  pose proof (np_dot_add_fitting X W1 b1 lead m h SX SW1 Sb1) as E1.
  assert (Sa : shape (np_tanh (dense_out lead m h X W1 b1)) = lead ++ [h])
    by reflexivity.
  pose proof (np_dot_add_fitting _ W2 b2 lead h o Sa SW2 Sb2) as E2.
  py_unfold.
  destruct (np_dot X W1) as [xw|e]; [|discriminate].
  cbv beta iota in E1. rewrite E1. exact E2.
Qed.

(** C3, as the code has it: for [serial(Dense(20), Tanh, Dense(1),
    Logistic)], [init_fun] on a seed [k] and input shape [(-1, 41)]
    returns output shape [(-1, 1)], and [apply_fun] of the returned
    parameters on a table of shape [(1000, 41)] returns an array of shape
    [(1000, 1)] with 1000 elements; the element at every position is
    [1 / (1 + exp(-z))] for the element [z] at that position of the
    second dense layer's output [np.dot(tanh(np.dot(X, W1) + b1), W2) +
    b2], computed in the arithmetic of the array elements.  Nothing is
    said of the interval the elements lie in. *)
Theorem model_end_to_end
    (W_init1 b_init1 W_init2 b_init2 : initializer T key world)
    (k : key) (g : world) (X : ndarray T) :
  respects_shape W_init1 → respects_shape b_init1 →
  respects_shape W_init2 → respects_shape b_init2 →
  shape X = [1000; 41] →
  ∃ L W1 b1 W2 b2 g',
    serial [Dense 20 W_init1 b_init1; Tanh;
            Dense 1 W_init2 b_init2; Logistic] = Ok L
    ∧ init_fun L k [(-1)%Z; 41%Z] g
      = (Ok ([(-1)%Z; 1%Z], two_dense_params W1 b1 W2 b2), g')
    ∧ ∀ g'', ∃ Z Y,
        apply_fun L (two_dense_params W1 b1 W2 b2) X None g'' = (Ok Y, g'')
        ∧ shape Y = [1000; 1]
        ∧ length (data Y) = 1000
        ∧ (xw ← np_dot X W1; z1 ← np_add xw b1;
           aw ← np_dot (np_tanh z1) W2; np_add aw b2) = Ok Z
        ∧ data Y = map logistic_scalar (data Z).
Proof.
  intros HW1 Hb1 HW2 Hb2 HX.
  destruct (two_dense_init W_init1 b_init1 W_init2 b_init2 np_tanh logistic
              (-1) k g HW1 Hb1 HW2 Hb2)
    as (W1 & b1 & W2 & b2 & g' & E & S1 & S2 & S3 & S4).
  eexists. exists W1, b1, W2, b2, g'.
  split; [apply serial_cons|]. split; [exact E|].
  intros g''.
  set (Z := dense_out [1000] 20 1 (np_tanh (dense_out [1000] 41 20 X W1 b1))
              W2 b2).
  exists Z, (logistic Z).
  split; [apply (two_dense_apply 20 1 _ _ _ _ W1 b1 W2 b2 X [1000] 41 20 1);
          assumption|].
  split; [reflexivity|]. split; [|split].
  - rewrite logistic_data, length_map.
    transitivity (size_of (shape Z)); [|reflexivity].
    change (wf_ndarray Z). unfold Z. apply dense_out_wf.
  - apply (two_dense_preactivation W1 b1 W2 b2 X [1000] 41 20 1); assumption.
  - apply logistic_data.
Qed.
End EndToEnd.

(** ** Elements of arrays filled with one value *)

Ltac solve_valid_index :=
  unfold valid_index; cbn [app];
  repeat match goal with
         | |- Forall2 _ (_ :: _) (_ :: _) =>
             constructor; [simpl; solve [assumption | lia]|]
         | |- Forall2 _ [] [] => constructor
         end.

Section FilledArrays.
Context {T : Type} `{Scalar T}.

Lemma get_full (s idx : list nat) (v : T) :
  valid_index s idx → get (full s v) idx = v.
Proof.
  intros Hidx. unfold get, full. cbn [shape data].
  pose proof (ravel_bound s idx Hidx) as Hb.
  rewrite (nth_indep _ s_zero v) by (rewrite repeat_length; exact Hb).
  apply nth_repeat.
Qed.

Lemma get_np_map (f : T → T) (a : ndarray T) (idx : list nat) :
  wf_ndarray a → valid_index (shape a) idx →
  get (np_map f a) idx = f (get a idx).
Proof.
  intros Hwf Hidx. unfold get, np_map. cbn [shape data].
  pose proof (ravel_bound _ idx Hidx) as Hb.
  rewrite (nth_indep _ s_zero (f s_zero))
    by (rewrite length_map, Hwf; exact Hb).
  apply map_nth.
Qed.

Lemma get_logistic `{Transcendental T} (z : ndarray T) (idx : list nat) :
  wf_ndarray z → valid_index (shape z) idx →
  get (logistic z) idx = logistic_scalar (get z idx).
Proof.
  intros Hwf Hidx. unfold get.
  change (shape (logistic z)) with (shape z).
  pose proof (ravel_bound _ idx Hidx) as Hb.
  rewrite logistic_data.
  rewrite (nth_indep _ s_zero (logistic_scalar s_zero))
    by (rewrite length_map, Hwf; exact Hb).
  apply map_nth.
Qed.

(** An entry of [np.dot(a, W) + b] where the row of [a] holds [x]
    throughout, [W] is filled with [w] and [b] with [c]. *)
Lemma dense_out_filled (lead : list nat) (m n : nat) (a : ndarray T)
    (x w c : T) (idx : list nat) (j : nat) :
  shape a = lead ++ [m] → valid_index lead idx → j < n →
  (∀ t, t < m → get a (idx ++ [t]) = x) →
  get (dense_out lead m n a (full [m; n] w) (full [n] c)) (idx ++ [j])
  = s_add (sum_upto m (λ _, s_mul x w)) c.
Proof.
  intros Sa Hidx Hj Hrow.
  rewrite (dense_out_get lead m n a (full [m; n] w) (full [n] c) idx j)
    by (assumption || reflexivity).
  f_equal.
  - apply sum_upto_ext. intros t Ht. rewrite Hrow by exact Ht.
    rewrite (get_full [m; n] [t; j] w); [reflexivity|].
    solve_valid_index.
  - apply get_full. solve_valid_index.
Qed.
End FilledArrays.

(** ** The code on concrete inputs *)

(** [dense_params] draws from the generator of the process: it leaves
    the state changed, so it is not pure. *)
Lemma dense_params_not_pure :
  ¬ pure_py (dense_params counter_normal ∅ "dense1" 41 20).
Proof.
  intros [r Hr]. specialize (Hr 0%Z). apply (f_equal snd) in Hr.
  vm_compute in Hr. discriminate.
Qed.

(** Each call advances the generator by two draws. *)
Lemma dense_params_draws_twice (g : Z) :
  snd (dense_params counter_normal ∅ "dense2" 20 1 g) = (g + 2)%Z.
Proof.
  unfold dense_params, getitem, counter_normal. py_unfold.
  rewrite lookup_insert_eq. cbv beta iota.
  rewrite lookup_insert_eq. cbn [snd]. lia.
Qed.

Example serial_small_layers : serial small_layers = Ok small_model.
Proof. reflexivity. Qed.

Example small_model_init :
  init_fun small_model 1%positive [(-1)%Z; 2%Z] tt
  = (Ok ([(-1)%Z; 1%Z], small_params), tt).
Proof. reflexivity. Qed.

Example small_model_apply :
  apply_fun small_model small_params
    (mk_ndarray [3; 2] [1; 2; 3; 4; 5; 6]%Z) None tt
  = (Ok (mk_ndarray [3; 1] [-54; -78; -102]%Z), tt).
Proof. reflexivity. Qed.

Example small_model_apply_misfit :
  apply_fun small_model small_params
    (mk_ndarray [3; 3] [1; 2; 3; 4; 5; 6; 7; 8; 9]%Z) None tt
  = (Raise TypeError, tt).
Proof. reflexivity. Qed.

Example Dense_init_empty_shape :
  init_fun (Dense (world:=unit) 20 (const_init 0%Z) (const_init 0%Z))
    1%positive [] tt
  = (Raise IndexError, tt).
Proof. reflexivity. Qed.

Lemma serial_demo_layers : serial demo_layers = Ok demo_model.
Proof. reflexivity. Qed.

Lemma serial_checked_layers : serial checked_layers = Ok checked_model.
Proof. reflexivity. Qed.

(** C1, counterexample: a dense layer whose initializers raise
    [ShapeError] on a wildcard, behind an activation.  The combined
    [init_fun] on shape [(-1, -1)] raises the bare [ShapeError], not a
    [CompositionError] around it. *)
Lemma serial_does_not_wrap :
  fst (init_fun checked_model 1%positive [(-1)%Z; (-1)%Z] tt)
  = Raise ShapeError
  ∧ ∀ index cause,
      fst (init_fun checked_model 1%positive [(-1)%Z; (-1)%Z] tt)
      ≠ Raise (CompositionError index cause).
Proof. split; [reflexivity | intros index cause; discriminate]. Qed.

Lemma serial_propagates_layer_error_witness :
  init_fun checked_model 1%positive [(-1)%Z; (-1)%Z] tt
  = (Raise ShapeError, tt)
  ∧ apply_fun checked_model
      (VList [VTuple [];
              VTuple [VArr (mk_ndarray [2; 2] [1; 0; 0; 1]%Z);
                      VArr (mk_ndarray [2] [0; 0]%Z)]])
      (mk_ndarray [1; 3] [1; 2; 3]%Z) None tt
    = (Raise TypeError, tt).
Proof.
  destruct (serial_propagates_layer_error checked_layers checked_model
              serial_checked_layers) as [Hinit Happly].
  split.
  - apply (Hinit [elementwise (np_map Z.succ)]
             (Dense 20 (checked_init 0%Z) (checked_init 0%Z)) []
             1%positive [(-1)%Z; (-1)%Z] tt [(-1)%Z; (-1)%Z] [VTuple []] tt);
      reflexivity.
  - apply (Happly _
             [VTuple [];
              VTuple [VArr (mk_ndarray [2; 2] [1; 0; 0; 1]%Z);
                      VArr (mk_ndarray [2] [0; 0]%Z)]]
             None (mk_ndarray [1; 3] [1; 2; 3]%Z) tt
             [(apply_fun (elementwise (np_map Z.succ)), VTuple [], None)]
             Dense_apply_fun
             (VTuple [VArr (mk_ndarray [2; 2] [1; 0; 0; 1]%Z);
                      VArr (mk_ndarray [2] [0; 0]%Z)])
             None []
             (mk_ndarray [1; 3] [2; 3; 4]%Z) tt);
      reflexivity.
Defined.

(** C2, counterexample: [Dense(20)] with initializers that fill with
    zeros, on the input shape [(-1, -1)].  No exception is raised: the
    result is the output shape [(-1, 20)] with a weight array of shape
    [(0, 20)] and a bias of shape [(20,)]. *)
Lemma Dense_wildcard_returns_params :
  fst (init_fun (Dense (world:=unit) 20 (const_init 0%Z) (const_init 0%Z))
         1%positive [(-1)%Z; (-1)%Z] tt)
  = Ok ([(-1)%Z; 20%Z],
        VTuple [VArr (mk_ndarray [0; 20] []);
                VArr (mk_ndarray [20] (repeat 0%Z 20))])
  ∧ fst (init_fun (Dense (world:=unit) 20 (const_init 0%Z) (const_init 0%Z))
           1%positive [(-1)%Z; (-1)%Z] tt)
    ≠ Raise ShapeError.
Proof. split; [reflexivity | discriminate]. Qed.

Lemma Dense_init_fun_wildcard_witness :
  init_fun (Dense (world:=unit) 20 (checked_init 0%Z) (checked_init 0%Z))
    1%positive [(-1)%Z; (-1)%Z] tt
  = (Raise ShapeError, tt)
  ∧ init_fun (Dense (world:=unit) 20 (const_init 0%Z) (const_init 0%Z))
      1%positive [(-1)%Z; (-1)%Z] tt
    = (Ok ([(-1)%Z; 20%Z],
           VTuple [VArr (full [0; 20] 0%Z); VArr (full [20] 0%Z)]), tt).
Proof.
  split.
  - apply (proj1 (Dense_init_fun_wildcard 20 (checked_init 0%Z)
                    (checked_init 0%Z) 1%positive [(-1)%Z] tt)).
    reflexivity.
  - apply (proj2 (proj2 (Dense_init_fun_wildcard 20 (const_init 0%Z)
                    (const_init 0%Z) 1%positive [(-1)%Z] tt))
             (full [0; 20] 0%Z) tt (full [20] 0%Z) tt);
      reflexivity.
Defined.

Lemma model_end_to_end_witness :
  ∃ L W1 b1 W2 b2 g',
    serial ones_layers = Ok L
    ∧ init_fun L 1%positive [(-1)%Z; 41%Z] tt
      = (Ok ([(-1)%Z; 1%Z], two_dense_params W1 b1 W2 b2), g')
    ∧ ∀ g'', ∃ Z Y,
        apply_fun L (two_dense_params W1 b1 W2 b2)
          (full [1000; 41] f32_one) None g'' = (Ok Y, g'')
        ∧ shape Y = [1000; 1]
        ∧ length (data Y) = 1000
        ∧ (xw ← np_dot (full [1000; 41] f32_one) W1; z1 ← np_add xw b1;
           aw ← np_dot (np_tanh z1) W2; np_add aw b2) = Ok Z
        ∧ data Y = map logistic_scalar (data Z).
Proof.
  apply (model_end_to_end (const_init f32_one) (const_init f32_zero)
           (const_init f32_one) (const_init f32_zero) 1%positive tt
           (full [1000; 41] f32_one));
    try apply const_init_respects_shape.
  reflexivity.
Defined.

Lemma serial_ones_layers : serial ones_layers = Ok ones_model.
Proof. reflexivity. Qed.

Lemma ones_model_init :
  init_fun ones_model 1%positive [(-1)%Z; 41%Z] tt
  = (Ok ([(-1)%Z; 1%Z], ones_params), tt).
Proof. reflexivity. Qed.

Lemma ones_model_apply (x : float32) :
  apply_fun ones_model ones_params (full [1000; 41] x) None tt
  = (Ok (ones_output x), tt).
Proof.
  apply (two_dense_apply 20 1 _ _ _ _ _ _ _ _ _ [1000] 41 20 1); reflexivity.
Qed.

(** The first element of the model's output when every entry of the
    table is [x]: the sums of the two dense layers collapse to sums of
    equal terms. *)
Lemma ones_output_first (x : float32) :
  get (ones_output x) [0; 0]
  = logistic_scalar
      (s_add (sum_upto 20
                (λ _, s_mul (s_tanh (s_add (sum_upto 41 (λ _, s_mul x f32_one))
                                           f32_zero))
                            f32_one))
             f32_zero).
Proof.
  unfold ones_output.
  set (z1 := dense_out [1000] 41 20 (full [1000; 41] x)
               (full [41; 20] f32_one) (full [20] f32_zero)).
  set (z2 := dense_out [1000] 20 1 (np_tanh z1)
               (full [20; 1] f32_one) (full [1] f32_zero)).
  rewrite (get_logistic z2 [0; 0]);
    [| apply dense_out_wf
     | change (valid_index [1000; 1] [0; 0]); solve_valid_index].
  apply (f_equal (logistic_scalar (T:=float32))).
  change (get z2 [0; 0]) with (get z2 ([0] ++ [0])).
  apply (dense_out_filled [1000] 20 1 (np_tanh z1));
    [reflexivity | solve_valid_index | lia |].
  intros t Ht. unfold np_tanh.
  rewrite (get_np_map s_tanh z1 ([0] ++ [t]));
    [| apply dense_out_wf
     | change (valid_index [1000; 20] [0; t]); solve_valid_index].
  apply (f_equal (s_tanh (T:=float32))).
  apply (dense_out_filled [1000] 41 20 (full [1000; 41] x));
    [reflexivity | solve_valid_index | exact Ht |].
  intros u Hu. apply get_full. solve_valid_index.
Qed.

(** C3, counterexample: on [float32], with weights filled with ones,
    biases with zeros and a table of ones, the first element of the
    model's output is exactly [1.0]: the second dense layer gives [20],
    [exp(-20)] is below half the distance from [1.0] to the next number,
    so [1 + exp(-20)] rounds to [1.0] and its inverse is [1.0].  The
    element is not below 1. *)
Lemma logistic_saturates_float32 :
  serial ones_layers = Ok ones_model
  ∧ init_fun ones_model 1%positive [(-1)%Z; 41%Z] tt
    = (Ok ([(-1)%Z; 1%Z], ones_params), tt)
  ∧ apply_fun ones_model ones_params (full [1000; 41] f32_one) None tt
    = (Ok (ones_output f32_one), tt)
  ∧ shape (ones_output f32_one) = [1000; 1]
  ∧ get (ones_output f32_one) [0; 0] = f32_one
  ∧ f32_ltb (get (ones_output f32_one) [0; 0]) f32_one = false.
Proof.
  split; [exact serial_ones_layers|].
  split; [exact ones_model_init|].
  split; [apply ones_model_apply|].
  split; [reflexivity|].
  rewrite ones_output_first. split; vm_compute; reflexivity.
Qed.

(** On a table filled with [nan], which is what a missing value of a
    data file is read as, the output is [nan] as well: the elements are
    not in the closed interval from 0 to 1 either. *)
Lemma nan_goes_through :
  apply_fun ones_model ones_params (full [1000; 41] f32_nan) None tt
  = (Ok (ones_output f32_nan), tt)
  ∧ get (ones_output f32_nan) [0; 0] = f32_nan.
Proof.
  split; [apply ones_model_apply|].
  rewrite ones_output_first. vm_compute. reflexivity.
Qed.

Lemma serial_init_fun_shapes_witness :
  ∃ L W1 b1 W2 b2 g',
    serial demo_layers = Ok L
    ∧ init_fun L 1%positive [(-1)%Z; 41%Z] 0%Z
      = (Ok ([(-1)%Z; 1%Z],
             VList [VTuple [VArr W1; VArr b1]; VTuple [];
                    VTuple [VArr W2; VArr b2]; VTuple []]), g')
    ∧ shape W1 = [41; 20] ∧ shape b1 = [20]
    ∧ shape W2 = [20; 1] ∧ shape b2 = [1].
Proof.
  apply (serial_init_fun_shapes (const_init f32_zero) (const_init f32_zero)
           (const_init f32_zero) (const_init f32_zero) np_tanh logistic
           (-1)%Z 1%positive 0%Z);
    apply const_init_respects_shape.
Defined.

Lemma Dense_init_fun_shapes_witness :
  ∃ W b g1 g2,
    const_init 0%Z 2%positive [41%Z; 20%Z] 0%Z = (Ok W, g1)
    ∧ const_init 0%Z 3%positive [20%Z] g1 = (Ok b, g2)
    ∧ init_fun (Dense 20 (const_init 0%Z) (const_init 0%Z))
        1%positive [(-1)%Z; 41%Z] 0%Z
      = (Ok ([(-1)%Z; 20%Z], VTuple [VArr W; VArr b]), g2)
    ∧ shape W = [41; 20]
    ∧ shape b = [20].
Proof.
  apply (Dense_init_fun_shapes 20 (const_init 0%Z) (const_init 0%Z)
           1%positive [(-1)%Z] 41%Z 0%Z);
    try apply const_init_respects_shape; lia.
Defined.

Lemma Dense_apply_fun_spec_witness :
  ∃ out,
    apply_fun (Dense (key:=positive) (world:=unit) 2
                 (const_init 0%Z) (const_init 0%Z))
      (VTuple [VArr (mk_ndarray [3; 2] [1; 0; 0; 1; 1; 1]%Z);
               VArr (mk_ndarray [2] [100; 200]%Z)])
      (mk_ndarray [2; 3] [1; 2; 3; 4; 5; 6]%Z) None tt = (Ok out, tt)
    ∧ shape out = [2; 2]
    ∧ wf_ndarray out
    ∧ ∀ idx j, valid_index [2] idx → j < 2 →
        get out (idx ++ [j])
        = s_add (sum_upto 3
                   (λ t, s_mul (get (mk_ndarray [2; 3] [1; 2; 3; 4; 5; 6]%Z)
                                    (idx ++ [t]))
                               (get (mk_ndarray [3; 2] [1; 0; 0; 1; 1; 1]%Z)
                                    [t; j])))
                (get (mk_ndarray [2] [100; 200]%Z) [j]).
Proof.
  apply (proj2 (Dense_apply_fun_spec 2 (const_init 0%Z) (const_init 0%Z)
                  (mk_ndarray [3; 2] [1; 0; 0; 1; 1; 1]%Z)
                  (mk_ndarray [2] [100; 200]%Z)
                  (mk_ndarray [2; 3] [1; 2; 3; 4; 5; 6]%Z) None tt)
           [2] 3 2);
    reflexivity.
Defined.

Lemma serial_init_deterministic_witness :
  fst (init_fun demo_model 1%positive [(-1)%Z; 41%Z] 0%Z)
  = fst (init_fun demo_model 1%positive [(-1)%Z; 41%Z] 7%Z)
  ∧ snd (init_fun demo_model 1%positive [(-1)%Z; 41%Z] 0%Z) = 0%Z.
Proof.
  apply (serial_init_deterministic demo_layers demo_model).
  - repeat constructor;
      try apply elementwise_pure_init;
      apply Dense_pure_init; apply const_init_pure.
  - exact serial_demo_layers.
Defined.

(** C8, counterexample: the splitter [k ↦ (2 * k, 2 * k + 1)] on
    numbers is a function, it is injective, each of its two keys
    determines the seed that was split, and no key is both a first and a
    second child.  Started at the seed 0, [serial] hands the seed 1 to
    both of its two layers. *)
Lemma injective_split_repeats_seeds :
  (∀ k k' : nat, random_split k = random_split k' → k = k')
  ∧ (∀ k k' : nat, fst (random_split k) = fst (random_split k') → k = k')
  ∧ (∀ k k' : nat, snd (random_split k) = snd (random_split k') → k = k')
  ∧ (∀ k k' : nat, fst (random_split k) ≠ snd (random_split k'))
  ∧ layer_rngs 2 0 = [1; 1]
  ∧ ∃ L, serial [seed_probe; seed_probe] = Ok L
         ∧ fst (init_fun L 0 [] tt)
           = Ok ([], VList [VArr (mk_ndarray [1] [0%Z]);
                            VArr (mk_ndarray [1] [0%Z])]).
Proof.
  split; [intros k k' [= E _]; lia|].
  split; [intros k k' E; simpl in E; lia|].
  split; [intros k k' E; simpl in E; lia|].
  split; [intros k k' E; simpl in E; lia|].
  split; [reflexivity|].
  eexists. split; reflexivity.
Qed.

Lemma path_running_rng (n : nat) (k : positive) :
  Pos.size_nat (running_rng n k) = n + Pos.size_nat k.
Proof.
  revert k. induction n as [|n IH]; intros k; [reflexivity|].
  change (running_rng (S n) k) with (running_rng n (xO k)).
  rewrite IH. simpl. lia.
Qed.

Lemma serial_init_seeds_witness :
  layer_rngs 4 1%positive !! 2 = Some 9%positive
  ∧ NoDup (layer_rngs 4 1%positive).
Proof.
  destruct (serial_init_seeds demo_layers demo_model serial_demo_layers)
    as (_ & Hlookup & Hdistinct).
  split.
  - apply (Hlookup 1%positive 2). simpl. lia.
  - apply (Hdistinct 1%positive).
    + intros k k' [= E]. exact E.
    + intros i j Hij E. apply (f_equal Pos.size_nat) in E.
      rewrite !path_running_rng in E. lia.
Defined.

Lemma nn_model_refines_inlined_witness :
  nn_model demo_params (full [3; 2] f32_one)
  = nn_model_inlined demo_params_flat (full [3; 2] f32_one).
Proof.
  refine (proj1 (nn_model_refines_inlined demo_params
                   {[ "w" := full [2; 2] f32_one; "b" := full [2] f32_zero ]}
                   {[ "w" := full [2; 1] f32_one; "b" := full [1] f32_zero ]}
                   demo_params_flat
                   (full [2; 2] f32_one) (full [2] f32_zero)
                   (full [2; 1] f32_one) (full [1] f32_zero)
                   (full [3; 2] f32_one)
                   _ _ _ _ _ _ _ _ _ _));
    reflexivity.
Defined.

(** * Further properties of the code *)

(** ** The [dense] transformation and the two-layer model *)

Section DenseFunction.
Context {T : Type} `{Scalar T}.

Lemma dense_run_fitting (params : gmap string (ndarray T))
    (w b x : ndarray T) (lead : list nat) (m n : nat) :
  params !! "w" = Some w → params !! "b" = Some b →
  shape x = lead ++ [m] → shape w = [m; n] → shape b = [n] →
  dense params x = Ok (dense_out lead m n x w b).
Proof.
  intros Hw Hb Sx Sw Sb.
  unfold dense, getitem. py_unfold. rewrite Hw. cbv beta iota.
  rewrite (np_dot_matrix x w lead m n Sx Sw). cbv beta iota.
  rewrite Hb. cbv beta iota. unfold np_add.
  rewrite (np_binop_bias s_add _ b lead n); [reflexivity|reflexivity|exact Sb].
Qed.

(** X1: [dense] on fitting operands.  For [x] of any rank at least one
    with last axis of length [m], ["w"] an [m] by [n] matrix and ["b"] a
    vector of length [n], [dense] returns an array with the leading axes
    of [x] and a last axis of length [n]; its entry at leading indices
    [idx] and column [j] is the sum over [t] of [x[idx, t] * w[t, j]],
    plus [b[j]]. *)
Theorem dense_fitting (params : gmap string (ndarray T))
    (w b x : ndarray T) (lead : list nat) (m n : nat) :
  params !! "w" = Some w → params !! "b" = Some b →
  shape x = lead ++ [m] → shape w = [m; n] → shape b = [n] →
  ∃ out,
    dense params x = Ok out
    ∧ shape out = lead ++ [n]
    ∧ wf_ndarray out
    ∧ ∀ idx j, valid_index lead idx → j < n →
        get out (idx ++ [j])
        = s_add (sum_upto m (λ t, s_mul (get x (idx ++ [t])) (get w [t; j])))
                (get b [j]).
Proof.
  intros Hw Hb Sx Sw Sb. exists (dense_out lead m n x w b).
  split; [|split; [reflexivity|split; [apply dense_out_wf|]]].
  - apply dense_run_fitting; assumption.
  - intros idx j Hidx Hj. apply dense_out_get; assumption.
Qed.

(** X2: the exceptions of [dense].  Without ["w"] it raises
    [KeyError("w")] whatever [x] is.  With ["w"] present, an exception
    of [np.dot] comes first, also when ["b"] is missing; only when the
    product exists does a missing ["b"] raise [KeyError("b")].  Entries
    other than ["w"] and ["b"] are never read. *)
Theorem dense_key_errors (params : gmap string (ndarray T)) (x : ndarray T) :
  (params !! "w" = None → dense params x = Raise (KeyError "w"))
  ∧ (∀ w e, params !! "w" = Some w → np_dot x w = Raise e →
       dense params x = Raise e)
  ∧ (∀ w xw, params !! "w" = Some w → np_dot x w = Ok xw →
       params !! "b" = None → dense params x = Raise (KeyError "b"))
  ∧ (∀ params' : gmap string (ndarray T),
       params' !! "w" = params !! "w" → params' !! "b" = params !! "b" →
       dense params' x = dense params x).
Proof.
  unfold dense, getitem. py_unfold. repeat split.
  - intros ->. reflexivity.
  - intros w e -> ->. reflexivity.
  - intros w xw -> -> ->. reflexivity.
  - intros params' -> ->. reflexivity.
Qed.
End DenseFunction.

Section DenseFunctionAndLayer.
Context {T : Type} `{Scalar T} {key : Type} `{PRNG key} {world : Type}.

(** X3: [Dense]'s [apply_fun] on the pair [(W, b)] does what [dense]
    does on a dictionary holding [W] under ["w"] and [b] under ["b"]:
    the same array or the same exception, for every input, whatever
    [rng] is passed and without touching the process state. *)
Theorem Dense_apply_fun_is_dense (out_dim : Z)
    (W_init b_init : initializer T key world)
    (params : gmap string (ndarray T)) (W b inputs : ndarray T)
    (rng : option key) (g : world) :
  params !! "w" = Some W → params !! "b" = Some b →
  apply_fun (Dense out_dim W_init b_init) (VTuple [VArr W; VArr b])
    inputs rng g
  = (dense params inputs, g).
Proof.
  intros Hw Hb. cbn [apply_fun Dense]. rewrite Dense_apply_fun_run.
  unfold dense, getitem. py_unfold. rewrite Hw. cbv beta iota.
  destruct (np_dot inputs W) as [xw|e]; [|reflexivity].
  rewrite Hb. reflexivity.
Qed.
End DenseFunctionAndLayer.

Section ModelShape.
Context {T : Type} `{Scalar T} `{Transcendental T}.

(** X4: the shape of [nn_model]'s result.  With ["dense1"] holding an
    [m] by [h] matrix and a vector of length [h], and ["dense2"] an [h]
    by [o] matrix and a vector of length [o], [nn_model] returns, for
    every input with last axis of length [m], an array with the leading
    axes of the input and a last axis of length [o], one element for
    each position. *)
Theorem nn_model_fitting (p : gmap string (gmap string (ndarray T)))
    (d1 d2 : gmap string (ndarray T)) (w1 b1 w2 b2 x : ndarray T)
    (lead : list nat) (m h o : nat) :
  p !! "dense1" = Some d1 → p !! "dense2" = Some d2 →
  d1 !! "w" = Some w1 → d1 !! "b" = Some b1 →
  d2 !! "w" = Some w2 → d2 !! "b" = Some b2 →
  shape w1 = [m; h] → shape b1 = [h] →
  shape w2 = [h; o] → shape b2 = [o] →
  shape x = lead ++ [m] →
  ∃ y, nn_model p x = Ok y ∧ shape y = lead ++ [o] ∧ wf_ndarray y.
Proof.
  intros Hd1 Hd2 Hw1 Hb1 Hw2 Hb2 Sw1 Sb1 Sw2 Sb2 Sx.
  pose proof (dense_run_fitting d1 w1 b1 x lead m h Hw1 Hb1 Sx Sw1 Sb1) as E1.
  set (z1 := dense_out lead m h x w1 b1) in *.
  assert (Sa1 : shape (np_tanh z1) = lead ++ [h]) by reflexivity.
  pose proof (dense_run_fitting d2 w2 b2 (np_tanh z1) lead h o
                Hw2 Hb2 Sa1 Sw2 Sb2) as E2.
  set (z2 := dense_out lead h o (np_tanh z1) w2 b2) in *.
  exists (logistic z2). split; [|split].
  - unfold nn_model, getitem. py_unfold. rewrite Hd1. cbv beta iota.
    rewrite E1. cbv beta iota. rewrite Hd2. cbv beta iota.
    rewrite E2. reflexivity.
  - reflexivity.
  - unfold wf_ndarray, logistic, np_exp, np_neg, np_map. cbn [data shape].
    rewrite !length_map. apply (dense_out_wf lead h o (np_tanh z1) w2 b2).
Qed.
End ModelShape.

Section ModelAndSerial.
Context {T : Type} `{Scalar T} `{Transcendental T}
        {key : Type} `{PRNG key} {world : Type}.

(** X5: the model sketch [(Dense(20), Tanh, Dense(1), Logistic)] and
    [nn_model] compute the same thing.  For any two dense layers, the
    combined [apply_fun] on the parameters [[(w1, b1), (), (w2, b2), ()]]
    returns, for every input, what [nn_model] returns on a dictionary
    holding the same four arrays: the same array or the same
    exception. *)
Theorem serial_apply_is_nn_model
    (out1 out2 : Z) (W_init1 b_init1 W_init2 b_init2 : initializer T key world)
    (L : Layer T key world)
    (p : gmap string (gmap string (ndarray T)))
    (d1 d2 : gmap string (ndarray T)) (w1 b1 w2 b2 x : ndarray T) (g : world) :
  serial [Dense out1 W_init1 b_init1; Tanh;
          Dense out2 W_init2 b_init2; Logistic] = Ok L →
  p !! "dense1" = Some d1 → p !! "dense2" = Some d2 →
  d1 !! "w" = Some w1 → d1 !! "b" = Some b1 →
  d2 !! "w" = Some w2 → d2 !! "b" = Some b2 →
  apply_fun L (two_dense_params w1 b1 w2 b2) x None g = (nn_model p x, g).
Proof.
  intros HL Hd1 Hd2 Hw1 Hb1 Hw2 Hb2.
  apply serial_ok_inv in HL as [_ ->].
  cbn [apply_fun]. unfold serial_apply_fun, two_dense_params. py_unfold.
  cbn [iter_value map apply_fun Dense Tanh Logistic elementwise length
       serial_rngs repeat zip3 combine].
  rewrite serial_apply_loop_cons, Dense_apply_fun_run.
  unfold nn_model, dense, getitem. py_unfold.
  rewrite Hd1. cbv beta iota. rewrite Hw1. cbv beta iota.
  destruct (np_dot x w1) as [xw|e]; [|reflexivity].
  rewrite Hb1. cbv beta iota.
  destruct (np_add xw b1) as [z1|e]; [|reflexivity].
  rewrite serial_apply_loop_cons. py_unfold.
  rewrite serial_apply_loop_cons, Dense_apply_fun_run. py_unfold.
  rewrite Hd2. cbv beta iota. rewrite Hw2. cbv beta iota.
  destruct (np_dot (np_tanh z1) w2) as [aw|e]; [|reflexivity].
  rewrite Hb2. cbv beta iota.
  destruct (np_add aw b2) as [z2|e]; reflexivity.
Qed.
End ModelAndSerial.

(** ** [dense_params] *)

Section DenseParamsFacts.
Context {T : Type} {world : Type}.
Variable npr_normal : list Z → py world (ndarray T).

Lemma dense_params_run (params : gmap string (gmap string (ndarray T)))
    (name : string) (input_dim output_dim : Z) (g g1 g2 : world)
    (w b : ndarray T) :
  npr_normal [input_dim; output_dim] g = (Ok w, g1) →
  npr_normal [output_dim] g1 = (Ok b, g2) →
  dense_params npr_normal params name input_dim output_dim g
  = (Ok (<[name := <["b" := b]> (<["w" := w]> ∅)]> params), g2).
Proof.
  intros Ew Eb. unfold dense_params, getitem. py_unfold.
  rewrite Ew. rewrite lookup_insert_eq. cbv beta iota.
  rewrite Eb. rewrite lookup_insert_eq. cbv beta iota.
  rewrite !insert_insert_eq. reflexivity.
Qed.

(** X8: what [dense_params] leaves in the dictionary.  When the two
    draws return [w] and then [b], the result holds under [name] a
    dictionary with exactly the two entries ["w"] and ["b"], [w] being
    the first draw and [b] the second, whatever was stored under [name]
    before; every other name keeps its entry; the generator is left as
    the second draw left it.  An exception of the first draw is
    raised by [dense_params]. *)
Theorem dense_params_entries (params : gmap string (gmap string (ndarray T)))
    (name : string) (input_dim output_dim : Z) (g : world) :
  (∀ w g1 b g2,
      npr_normal [input_dim; output_dim] g = (Ok w, g1) →
      npr_normal [output_dim] g1 = (Ok b, g2) →
      ∃ result layer,
        dense_params npr_normal params name input_dim output_dim g
          = (Ok result, g2)
        ∧ result !! name = Some layer
        ∧ layer !! "w" = Some w ∧ layer !! "b" = Some b
        ∧ (∀ k, k ≠ "w" → k ≠ "b" → layer !! k = None)
        ∧ (∀ name', name' ≠ name → result !! name' = params !! name'))
  ∧ (∀ e g1,
      npr_normal [input_dim; output_dim] g = (Raise e, g1) →
      dense_params npr_normal params name input_dim output_dim g
        = (Raise e, g1)).
Proof.
  split.
  - intros w g1 b g2 Ew Eb.
    exists (<[name := <["b" := b]> (<["w" := w]> ∅)]> params),
           (<["b" := b]> (<["w" := w]> ∅)).
    split; [exact (dense_params_run params name input_dim output_dim
                     g g1 g2 w b Ew Eb)|].
    split; [apply lookup_insert_eq|].
    split; [rewrite lookup_insert_ne by discriminate; apply lookup_insert_eq|].
    split; [apply lookup_insert_eq|].
    split.
    + intros k Hw Hb. rewrite !lookup_insert_ne by congruence.
      apply lookup_empty.
    + intros name' Hne. apply lookup_insert_ne. congruence.
  - intros e g1 Ew. unfold dense_params. py_unfold. rewrite Ew. reflexivity.
Qed.

Context `{Scalar T} `{Transcendental T}.

(** X9: parameters made by [dense_params] fit [nn_model].  With a
    generator that returns arrays of the shape asked for, calling
    [dense_params] for ["dense1"] with dimensions [(m, h)] and then for
    ["dense2"] with [(h, o)], on any dictionary, gives parameters on
    which [nn_model] returns, for every input with last axis of length
    [m], an array with the leading axes of the input and a last axis of
    length [o]. *)
Theorem dense_params_fit_nn_model
    (params : gmap string (gmap string (ndarray T))) (m h o : Z)
    (g : world) (x : ndarray T) (lead : list nat) :
  npr_respects_shape npr_normal →
  (0 ≤ m)%Z → (0 ≤ h)%Z → (0 ≤ o)%Z →
  shape x = lead ++ [Z.to_nat m] →
  ∃ p g' y,
    (params1 ← dense_params npr_normal params "dense1" m h;
     dense_params npr_normal params1 "dense2" h o) g = (Ok p, g')
    ∧ nn_model p x = Ok y
    ∧ shape y = lead ++ [Z.to_nat o].
Proof.
  intros Hnpr Hm Hh Ho Sx.
  destruct (Hnpr [m; h] g) as (w1 & g1 & Ew1 & Sw1);
    [repeat constructor; assumption|].
  destruct (Hnpr [h] g1) as (b1 & g2 & Eb1 & Sb1);
    [repeat constructor; assumption|].
  destruct (Hnpr [h; o] g2) as (w2 & g3 & Ew2 & Sw2);
    [repeat constructor; assumption|].
  destruct (Hnpr [o] g3) as (b2 & g4 & Eb2 & Sb2);
    [repeat constructor; assumption|].
  set (l1 := <["b" := b1]> (<["w" := w1]> (∅ : gmap string (ndarray T)))).
  set (l2 := <["b" := b2]> (<["w" := w2]> (∅ : gmap string (ndarray T)))).
  set (p := <["dense2" := l2]> (<["dense1" := l1]> params)).
  assert (Hrun :
    (params1 ← dense_params npr_normal params "dense1" m h;
     dense_params npr_normal params1 "dense2" h o) g = (Ok p, g4)).
  { py_unfold. rewrite (dense_params_run params "dense1" m h g g1 g2 w1 b1 Ew1 Eb1).
    exact (dense_params_run _ "dense2" h o g2 g3 g4 w2 b2 Ew2 Eb2). }
  assert (Hd1 : p !! "dense1" = Some l1).
  { unfold p. rewrite lookup_insert_ne by discriminate. apply lookup_insert_eq. }
  assert (Hd2 : p !! "dense2" = Some l2) by apply lookup_insert_eq.
  assert (Hw1 : l1 !! "w" = Some w1).
  { unfold l1. rewrite lookup_insert_ne by discriminate. apply lookup_insert_eq. }
  assert (Hb1 : l1 !! "b" = Some b1) by apply lookup_insert_eq.
  assert (Hw2 : l2 !! "w" = Some w2).
  { unfold l2. rewrite lookup_insert_ne by discriminate. apply lookup_insert_eq. }
  assert (Hb2 : l2 !! "b" = Some b2) by apply lookup_insert_eq.
  pose proof (dense_run_fitting l1 w1 b1 x lead (Z.to_nat m) (Z.to_nat h)
                Hw1 Hb1 Sx Sw1 Sb1) as E1.
  set (z1 := dense_out lead (Z.to_nat m) (Z.to_nat h) x w1 b1) in *.
  assert (Sa1 : shape (np_tanh z1) = lead ++ [Z.to_nat h]) by reflexivity.
  pose proof (dense_run_fitting l2 w2 b2 (np_tanh z1) lead (Z.to_nat h)
                (Z.to_nat o) Hw2 Hb2 Sa1 Sw2 Sb2) as E2.
  exists p, g4,
    (logistic (dense_out lead (Z.to_nat h) (Z.to_nat o) (np_tanh z1) w2 b2)).
  split; [exact Hrun|]. split; [|reflexivity].
  unfold nn_model, getitem. py_unfold. rewrite Hd1. cbv beta iota.
  rewrite E1. cbv beta iota. rewrite Hd2. cbv beta iota.
  rewrite E2. reflexivity.
Qed.
End DenseParamsFacts.

(** ** The [Dense] layer *)

Section DenseLayerFacts.
Context {T : Type} `{Scalar T} {key : Type} `{PRNG key} {world : Type}.

Local Abbreviation initializer' := (initializer T key world).

(** X10: the form of every result of [Dense]'s [init_fun].  On the empty
    shape it raises [IndexError] before any initializer is called, so
    the process state is as it was.  Whenever it returns, the input
    shape was not empty, the output shape is the input shape with
    [out_dim] in the last place (of the same length), and the parameters
    are a pair of arrays; the arrays are taken from the initializers as
    they come, their shapes are not looked at. *)
Theorem Dense_init_fun_result (out_dim : Z) (W_init b_init : initializer') :
  (∀ rng (g : world),
      init_fun (Dense out_dim W_init b_init) rng [] g = (Raise IndexError, g))
  ∧ (∀ rng input_shape g output_shape params g',
      init_fun (Dense out_dim W_init b_init) rng input_shape g
        = (Ok (output_shape, params), g') →
      input_shape ≠ []
      ∧ output_shape = removelast input_shape ++ [out_dim]
      ∧ length output_shape = length input_shape
      ∧ ∃ W b,
          params = VTuple [VArr W; VArr b]
          ∧ ∃ d g1,
              last input_shape = Some d
              ∧ W_init (fst (random_split rng)) [d; out_dim] g = (Ok W, g1)
              ∧ b_init (snd (random_split rng)) [out_dim] g1 = (Ok b, g')).
Proof.
  split.
  - intros rng g. apply Dense_init_fun_empty.
  - intros rng input_shape g output_shape params g'.
    destruct input_shape as [|d lead _] using rev_ind.
    + cbn [init_fun Dense]. rewrite Dense_init_fun_empty. discriminate.
    + cbn [init_fun Dense]. rewrite Dense_init_fun_run.
      destruct (W_init (fst (random_split rng)) [d; out_dim] g)
        as [[W|e] g1] eqn:EW; [|discriminate].
      destruct (b_init (snd (random_split rng)) [out_dim] g1)
        as [[b|e] g2] eqn:Eb; [|discriminate].
      intros [= <- <- <-].
      split; [intros E; apply app_eq_nil in E as [_ E]; discriminate|].
      split; [rewrite removelast_last; reflexivity|].
      split; [rewrite !length_app; reflexivity|].
      exists W, b. split; [reflexivity|].
      exists d, g1. rewrite last_snoc. auto.
Qed.

Lemma Dense_maps (out_dim in_dim : Z) (W_init b_init : initializer') :
  respects_shape W_init → respects_shape b_init →
  (0 ≤ out_dim)%Z → (0 ≤ in_dim)%Z →
  layer_maps (Dense out_dim W_init b_init) in_dim out_dim.
Proof.
  intros HW Hb Hout Hin rng lead g.
  destruct (Dense_init_fun_ok out_dim W_init b_init rng lead in_dim g
              HW Hb Hout Hin) as (W & b & g' & E & SW & Sb).
  exists (VTuple [VArr W; VArr b]), g'. split; [exact E|].
  intros x bs g'' Sx.
  exists (dense_out bs (Z.to_nat in_dim) (Z.to_nat out_dim) x W b).
  split; [|reflexivity].
  apply Dense_apply_fun_fitting; assumption.
Qed.

(** X11: the parameters [Dense]'s [init_fun] makes fit its [apply_fun].
    With initializers that return arrays of the shape asked for, and an
    input shape ending in a concrete length [in_dim], [init_fun] returns
    a pair [(W, b)] on which [apply_fun] takes every array whose last
    axis has length [in_dim], whatever its leading axes and whatever
    [rng] is passed, to an array with the same leading axes and a last
    axis of length [out_dim]: the last entry of the output shape that
    [init_fun] announced. *)
Theorem Dense_init_then_apply (out_dim in_dim : Z)
    (W_init b_init : initializer') (rng : key) (lead : list Z) (g : world) :
  respects_shape W_init → respects_shape b_init →
  (0 ≤ out_dim)%Z → (0 ≤ in_dim)%Z →
  ∃ W b g',
    init_fun (Dense out_dim W_init b_init) rng (lead ++ [in_dim]) g
      = (Ok (lead ++ [out_dim], VTuple [VArr W; VArr b]), g')
    ∧ ∀ (x : ndarray T) (bs : list nat) (rng' : option key) (g'' : world),
        shape x = bs ++ [Z.to_nat in_dim] →
        ∃ y,
          apply_fun (Dense out_dim W_init b_init)
            (VTuple [VArr W; VArr b]) x rng' g'' = (Ok y, g'')
          ∧ shape y = bs ++ [Z.to_nat out_dim]
          ∧ wf_ndarray y.
Proof.
  intros HW Hb Hout Hin.
  destruct (Dense_init_fun_ok out_dim W_init b_init rng lead in_dim g
              HW Hb Hout Hin) as (W & b & g' & E & SW & Sb).
  exists W, b, g'. split; [exact E|].
  intros x bs rng' g'' Sx.
  exists (dense_out bs (Z.to_nat in_dim) (Z.to_nat out_dim) x W b).
  split; [apply Dense_apply_fun_fitting; assumption|].
  split; [reflexivity | apply dense_out_wf].
Qed.

End DenseLayerFacts.

(** ** The [serial] combinator *)

Lemma combine_app_same {A B} (a1 a2 : list A) (b1 b2 : list B) :
  length a1 = length b1 →
  combine (a1 ++ a2) (b1 ++ b2) = combine a1 b1 ++ combine a2 b2.
Proof.
  revert b1. induction a1 as [|x a1 IH]; intros [|y b1] Hlen;
    simpl in *; try discriminate; [reflexivity|].
  rewrite IH by lia. reflexivity.
Qed.

Lemma combine_prefix {A B} (a1 a2 : list A) (b : list B) :
  length b = length a1 → combine (a1 ++ a2) b = combine a1 b.
Proof.
  revert b. induction a1 as [|x a1 IH]; intros [|y b] Hlen;
    simpl in *; try discriminate; try reflexivity.
  - destruct a2; reflexivity.
  - rewrite IH by lia. reflexivity.
Qed.

Section SerialComposition.
Context {T : Type} `{Scalar T} {key : Type} `{PRNG key} {world : Type}.

Local Abbreviation layer := (Layer T key world).
Local Abbreviation init_t := (key → list Z → py world (list Z * value T))%type.
Local Abbreviation apply_t :=
  (value T → ndarray T → option key → py world (ndarray T))%type.

Lemma serial_init_loop_acc (fs : list init_t) rng input_shape params (g : world) :
  serial_init_loop fs rng input_shape params g
  = match serial_init_loop fs rng input_shape [] g with
    | (Ok (s, ps), g') => (Ok (s, params ++ ps), g')
    | (Raise e, g') => (Raise e, g')
    end.
Proof.
  revert rng input_shape params g.
  induction fs as [|f fs IH]; intros rng input_shape params g.
  - simpl. py_unfold. rewrite app_nil_r. reflexivity.
  - rewrite !serial_init_loop_cons.
    destruct (f (snd (random_split rng)) input_shape g) as [[[s p]|e] g1];
      [|reflexivity].
    rewrite (IH _ _ (params ++ [p])), (IH _ _ ([] ++ [p])).
    destruct (serial_init_loop fs (fst (random_split rng)) s [] g1)
      as [[[s' ps]|e] g2]; [|reflexivity].
    rewrite <- app_assoc. reflexivity.
Qed.

Lemma zip3_app (fs1 fs2 : list apply_t) (ps1 ps2 : list (value T)) :
  length ps1 = length fs1 →
  zip3 (fs1 ++ fs2) (ps1 ++ ps2)
    (repeat (None : option key) (length (fs1 ++ fs2)))
  = zip3 fs1 ps1 (repeat None (length fs1))
    ++ zip3 fs2 ps2 (repeat None (length fs2)).
Proof.
  intros Hlen. unfold zip3.
  rewrite length_app, repeat_app, (combine_app_same fs1 fs2 ps1 ps2) by lia.
  apply combine_app_same.
  rewrite length_combine, repeat_length. lia.
Qed.

Lemma serial_init_fun_app_run (layers1 layers2 : list layer) (L1 L2 L : layer)
    (rng : key) (input_shape : list Z) (g : world) :
  serial layers1 = Ok L1 → serial layers2 = Ok L2 →
  serial (layers1 ++ layers2) = Ok L →
  init_fun L rng input_shape g
  = match init_fun L1 rng input_shape g with
    | (Ok (shape1, params1), g1) =>
        match init_fun L2 (running_rng (length layers1) rng) shape1 g1 with
        | (Ok (shape2, params2), g2) =>
            match iter_value params1, iter_value params2 with
            | Ok ps1, Ok ps2 => (Ok (shape2, VList (ps1 ++ ps2)), g2)
            | _, _ => (Raise TypeError, g2)
            end
        | (Raise e, g2) => (Raise e, g2)
        end
    | (Raise e, g1) => (Raise e, g1)
    end.
Proof.
  intros H1 H2 HL.
  apply serial_ok_inv in H1 as [_ ->]. apply serial_ok_inv in H2 as [_ ->].
  apply serial_ok_inv in HL as [_ ->].
  cbn [init_fun]. unfold serial_init_fun. py_unfold.
  rewrite map_app, serial_init_loop_app, length_map.
  destruct (serial_init_loop (map init_fun layers1) rng input_shape [] g)
    as [[[s1 ps1]|e] g1]; [|reflexivity].
  rewrite serial_init_loop_acc.
  destruct (serial_init_loop (map init_fun layers2)
              (running_rng (length layers1) rng) s1 [] g1)
    as [[[s2 ps2]|e] g2]; reflexivity.
Qed.

(** X13: [serial] of a concatenation, initialisation.  The combined
    [init_fun] of [layers1 ++ layers2] does what the combined [init_fun]
    of [layers1] does on the given seed and shape, followed by that of
    [layers2] on the running seed after [len(layers1)] splits and the
    shape the first part returned; the parameter list is the first list
    followed by the second.  An exception of the first part ends the
    call before the second part starts, and an exception of the second
    part is raised as it is. *)
Theorem serial_init_fun_app (layers1 layers2 : list layer) (L1 L2 L : layer)
    (rng : key) (input_shape : list Z) (g : world) :
  serial layers1 = Ok L1 → serial layers2 = Ok L2 →
  serial (layers1 ++ layers2) = Ok L →
  (∀ e g1,
      init_fun L1 rng input_shape g = (Raise e, g1) →
      init_fun L rng input_shape g = (Raise e, g1))
  ∧ (∀ shape1 ps1 g1,
      init_fun L1 rng input_shape g = (Ok (shape1, VList ps1), g1) →
      (∀ e g2,
          init_fun L2 (running_rng (length layers1) rng) shape1 g1
            = (Raise e, g2) →
          init_fun L rng input_shape g = (Raise e, g2))
      ∧ (∀ shape2 ps2 g2,
          init_fun L2 (running_rng (length layers1) rng) shape1 g1
            = (Ok (shape2, VList ps2), g2) →
          init_fun L rng input_shape g
            = (Ok (shape2, VList (ps1 ++ ps2)), g2))).
Proof.
  intros H1 H2 HL.
  pose proof (serial_init_fun_app_run layers1 layers2 L1 L2 L rng
                input_shape g H1 H2 HL) as Hrun.
  split.
  - intros e g1 E1. rewrite Hrun, E1. reflexivity.
  - intros shape1 ps1 g1 E1. rewrite E1 in Hrun. split.
    + intros e g2 E2. rewrite Hrun, E2. reflexivity.
    + intros shape2 ps2 g2 E2. rewrite Hrun, E2. reflexivity.
Qed.

(** X14: [serial] of a concatenation, application.  When the parameter
    list splits into one entry for each layer of [layers1] and the rest,
    the combined [apply_fun] of [layers1 ++ layers2], called without
    [rng], is the combined [apply_fun] of [layers1] on the first part of
    the parameters followed by that of [layers2] on the rest, applied to
    what the first returned. *)
Theorem serial_apply_fun_app (layers1 layers2 : list layer) (L1 L2 L : layer)
    (params1 params2 : list (value T)) (inputs : ndarray T) (g : world) :
  serial layers1 = Ok L1 → serial layers2 = Ok L2 →
  serial (layers1 ++ layers2) = Ok L →
  length params1 = length layers1 →
  apply_fun L (VList (params1 ++ params2)) inputs None g
  = match apply_fun L1 (VList params1) inputs None g with
    | (Ok inputs1, g1) => apply_fun L2 (VList params2) inputs1 None g1
    | (Raise e, g1) => (Raise e, g1)
    end.
Proof.
  intros H1 H2 HL Hlen.
  apply serial_ok_inv in H1 as [_ ->]. apply serial_ok_inv in H2 as [_ ->].
  apply serial_ok_inv in HL as [_ ->].
  cbn [apply_fun]. unfold serial_apply_fun. py_unfold.
  cbn [iter_value serial_rngs].
  rewrite <- (length_map apply_fun (layers1 ++ layers2)).
  rewrite <- (length_map apply_fun layers1), <- (length_map apply_fun layers2).
  rewrite map_app, zip3_app by (rewrite length_map; exact Hlen).
  apply serial_apply_loop_app.
Qed.

(** X15: [serial]'s [apply_fun] does not compare the parameter list
    with the layers.  Called without [rng] on a list with fewer entries
    than layers, it applies the layers that have an entry, in order, and
    returns what the last of them returned, without calling the others;
    on the empty list it returns the inputs as they are.  Entries beyond
    the number of layers are ignored. *)
Theorem serial_apply_fun_truncates (layers1 layers2 : list layer) (L : layer)
    (params extra : list (value T)) (inputs : ndarray T) (g : world) :
  serial (layers1 ++ layers2) = Ok L →
  length params = length layers1 →
  apply_fun L (VList params) inputs None g
  = serial_apply_loop
      (zip3 (map apply_fun layers1) params (repeat None (length layers1)))
      inputs g
  ∧ apply_fun L (VList []) inputs None g = (Ok inputs, g)
  ∧ (layers2 = [] →
     apply_fun L (VList (params ++ extra)) inputs None g
     = apply_fun L (VList params) inputs None g).
Proof.
  intros HL Hlen. apply serial_ok_inv in HL as [Hne ->].
  cbn [apply_fun]. unfold serial_apply_fun. py_unfold.
  cbn [iter_value serial_rngs]. repeat split.
  - f_equal. unfold zip3. rewrite map_app.
    rewrite (combine_prefix (map apply_fun layers1) (map apply_fun layers2))
      by (rewrite length_map; exact Hlen).
    rewrite length_app, repeat_app.
    rewrite <- (app_nil_r (combine (map apply_fun layers1) params)) at 1.
    rewrite combine_app_same
      by (rewrite length_combine, repeat_length, length_map; lia).
    simpl. apply app_nil_r.
  - unfold zip3. destruct (map apply_fun (layers1 ++ layers2)); reflexivity.
  - intros ->. rewrite app_nil_r in *. f_equal. unfold zip3. f_equal.
    rewrite <- (app_nil_r (map apply_fun layers1)) at 1.
    rewrite combine_app_same by (rewrite length_map; lia).
    simpl. apply app_nil_r.
Qed.

Lemma elementwise_maps (f : ndarray T → ndarray T) (d : Z) :
  shape_preserving f → layer_maps (elementwise (key:=key) (world:=world) f) d d.
Proof.
  intros Hf rng lead g. exists (VTuple []), g. split; [reflexivity|].
  intros x bs g'' Sx. exists (f x). split; [reflexivity|].
  rewrite Hf. exact Sx.
Qed.

Lemma serial_loops_map (layers : list layer) (d d' : Z) :
  layers_map layers d d' →
  ∀ rng lead acc (g : world),
    ∃ ps g',
      serial_init_loop (map init_fun layers) rng (lead ++ [d]) acc g
        = (Ok (lead ++ [d'], acc ++ ps), g')
      ∧ ∀ x bs g'',
          shape x = bs ++ [Z.to_nat d] →
          ∃ y,
            serial_apply_loop
              (zip3 (map apply_fun layers) ps (repeat None (length layers)))
              x g'' = (Ok y, g'')
            ∧ shape y = bs ++ [Z.to_nat d'].
Proof.
  induction 1 as [d | l ls d d1 d2 Hl Hls IH]; intros rng lead acc g.
  - exists [], g. split; [simpl; py_unfold; rewrite app_nil_r; reflexivity|].
    intros x bs g'' Sx. exists x. split; [reflexivity | exact Sx].
  - destruct (Hl (snd (random_split rng)) lead g) as (p & g1 & Ei & Ha).
    destruct (IH (fst (random_split rng)) lead (acc ++ [p]) g1)
      as (ps & g2 & Eloop & Hloop).
    exists (p :: ps), g2. split.
    + cbn [map]. rewrite serial_init_loop_cons, Ei, Eloop, <- app_assoc.
      reflexivity.
    + intros x bs g'' Sx.
      destruct (Ha x bs g'' Sx) as (y1 & Ey1 & Sy1).
      destruct (Hloop y1 bs g'' Sy1) as (y & Ey & Sy).
      exists y. split; [|exact Sy].
      cbn [map length repeat zip3 combine].
      rewrite serial_apply_loop_cons, Ey1. exact Ey.
Qed.

(** X16: shapes go through [serial].  When each layer of a sequence
    takes the last-axis length that the layer before it produces (its
    [init_fun] announces it and its [apply_fun], on the parameters of
    that call, delivers it), then so does the combined layer: its
    [init_fun] returns the input shape with the last length of the
    sequence in the last place, and its [apply_fun] on the returned
    parameters takes every array whose last axis has the first length to
    an array with the same leading axes and the last length. *)
Theorem serial_layer_maps (layers : list layer) (L : layer) (d d' : Z) :
  layers_map layers d d' → serial layers = Ok L → layer_maps L d d'.
Proof.
  intros Hmap HL. apply serial_ok_inv in HL as [_ ->]. intros rng lead g.
  destruct (serial_loops_map layers d d' Hmap rng lead [] g)
    as (ps & g' & Eloop & Hloop).
  exists (VList ps), g'. split.
  - cbn [init_fun]. unfold serial_init_fun. py_unfold. rewrite Eloop.
    reflexivity.
  - intros x bs g'' Sx. destruct (Hloop x bs g'' Sx) as (y & Ey & Sy).
    exists y. split; [|exact Sy].
    cbn [apply_fun]. unfold serial_apply_fun. py_unfold.
    cbn [iter_value serial_rngs]. exact Ey.
Qed.
Lemma serial_init_steps_length (layers : list layer) rng input_shape
    (g : world) ps output_shape g' :
  serial_init_steps layers rng input_shape g ps output_shape g' →
  length ps = length layers.
Proof.
  revert rng input_shape g ps.
  induction layers as [|l layers IH]; intros rng input_shape g [|p ps];
    simpl; try tauto.
  intros (s1 & g1 & _ & Hrest). f_equal. exact (IH _ _ _ _ Hrest).
Qed.

Lemma serial_init_loop_steps (layers : list layer) rng input_shape acc
    (g : world) output_shape ps g' :
  serial_init_loop (map init_fun layers) rng input_shape acc g
    = (Ok (output_shape, ps), g')
  ↔ ∃ qs, ps = acc ++ qs
          ∧ serial_init_steps layers rng input_shape g qs output_shape g'.
Proof.
  revert rng input_shape acc g.
  induction layers as [|l layers IH]; intros rng input_shape acc g.
  - simpl. py_unfold. split.
    + intros [= <- <- <-]. exists []. rewrite app_nil_r. auto.
    + intros ([|q qs] & -> & Hsteps); simpl in Hsteps; [|tauto].
      destruct Hsteps as [-> ->]. rewrite app_nil_r. reflexivity.
  - cbn [map]. rewrite serial_init_loop_cons. split.
    + destruct (init_fun l (snd (random_split rng)) input_shape g)
        as [[[s1 p]|e] g1] eqn:E0; [|discriminate].
      intros Hloop. apply IH in Hloop as (qs & -> & Hsteps).
      exists (p :: qs). split; [rewrite <- app_assoc; reflexivity|].
      simpl. exists s1, g1. auto.
    + intros ([|p qs] & -> & Hsteps); simpl in Hsteps; [tauto|].
      destruct Hsteps as (s1 & g1 & E0 & Hsteps). rewrite E0.
      apply IH. exists qs. split; [rewrite <- app_assoc; reflexivity|].
      exact Hsteps.
Qed.

(** X17: the parameter list of [serial]'s [init_fun] is aligned with
    the layers.  The combined [init_fun] returns exactly when the
    layers' own [init_fun]s return one after the other in this chain:
    layer 0 is called with its seed on the given input shape in the
    given process state, and every later layer with its seed on the
    shape that the layer before it returned, in the process state that
    layer left.  The parameters are then the list of what the layers
    returned, one entry for each layer in order, and the output shape
    and final state are those of the last call. *)
Theorem serial_init_fun_entries (layers : list layer) (L : layer)
    (rng : key) (input_shape : list Z) (g : world)
    (output_shape : list Z) (params : value T) (g' : world) :
  serial layers = Ok L →
  init_fun L rng input_shape g = (Ok (output_shape, params), g')
  ↔ ∃ ps,
      params = VList ps
      ∧ length ps = length layers
      ∧ serial_init_steps layers rng input_shape g ps output_shape g'.
Proof.
  intros HL. apply serial_ok_inv in HL as [_ ->].
  cbn [init_fun]. unfold serial_init_fun. py_unfold. split.
  - destruct (serial_init_loop (map init_fun layers) rng input_shape [] g)
      as [[[s ps]|e] g1] eqn:E; [|discriminate].
    intros [= <- <- <-].
    apply serial_init_loop_steps in E as (qs & -> & Hsteps).
    exists qs. split; [reflexivity|].
    split; [exact (serial_init_steps_length _ _ _ _ _ _ _ Hsteps) | exact Hsteps].
  - intros (ps & -> & _ & Hsteps).
    assert (E : serial_init_loop (map init_fun layers) rng input_shape [] g
                = (Ok (output_shape, ps), g')).
    { apply serial_init_loop_steps. exists ps. auto. }
    rewrite E. reflexivity.
Qed.
End SerialComposition.

Section MoreLayerFacts.
Context {T : Type} `{Scalar T} {key : Type} `{PRNG key} {world : Type}.

Local Abbreviation layer := (Layer T key world).

(** X18: [Dense]'s [apply_fun] treats the leading axes as independent
    samples.  For two inputs of the same shape that agree along the last
    axis at the leading indices [idx], the two results agree in every
    column at [idx], whatever the inputs hold elsewhere. *)
Theorem Dense_apply_fun_rows_independent (out_dim : Z)
    (W_init b_init : initializer T key world) (W b x x' : ndarray T)
    (lead : list nat) (m n : nat) (rng : option key) (g : world)
    (idx : list nat) :
  shape x = lead ++ [m] → shape x' = lead ++ [m] →
  shape W = [m; n] → shape b = [n] →
  valid_index lead idx →
  (∀ t, t < m → get x (idx ++ [t]) = get x' (idx ++ [t])) →
  ∃ y y',
    apply_fun (Dense out_dim W_init b_init) (VTuple [VArr W; VArr b]) x rng g
      = (Ok y, g)
    ∧ apply_fun (Dense out_dim W_init b_init) (VTuple [VArr W; VArr b]) x' rng g
      = (Ok y', g)
    ∧ ∀ j, j < n → get y (idx ++ [j]) = get y' (idx ++ [j]).
Proof.
  intros Sx Sx' SW Sb Hidx Hrow.
  exists (dense_out lead m n x W b), (dense_out lead m n x' W b).
  split; [apply Dense_apply_fun_fitting; assumption|].
  split; [apply Dense_apply_fun_fitting; assumption|].
  intros j Hj. rewrite !dense_out_get by assumption.
  f_equal. apply sum_upto_ext. intros t Ht. rewrite Hrow by exact Ht.
  reflexivity.
Qed.

Lemma serial_apply_fun_split
    (fs1 fs2 : list (value T → ndarray T → option key → py world (ndarray T)))
    (ps1 ps2 : list (value T)) (x : ndarray T) (g : world) :
  length ps1 = length fs1 →
  serial_apply_fun (length (fs1 ++ fs2)) (fs1 ++ fs2)
    (VList (ps1 ++ ps2)) x None g
  = match serial_apply_fun (length fs1) fs1 (VList ps1) x None g with
    | (Ok y, g1) => serial_apply_fun (length fs2) fs2 (VList ps2) y None g1
    | (Raise e, g1) => (Raise e, g1)
    end.
Proof.
  intros Hlen. unfold serial_apply_fun. py_unfold.
  cbn [iter_value serial_rngs].
  rewrite zip3_app by exact Hlen. apply serial_apply_loop_app.
Qed.

Lemma serial_apply_fun_pair
    (f1 f2 : value T → ndarray T → option key → py world (ndarray T))
    (p1 p2 : value T) (x : ndarray T) (g : world) :
  serial_apply_fun 2 [f1; f2] (VList [p1; p2]) x None g
  = match f1 p1 x None g with
    | (Ok y, g1) => f2 p2 y None g1
    | (Raise e, g1) => (Raise e, g1)
    end.
Proof.
  unfold serial_apply_fun. py_unfold. simpl. py_unfold.
  destruct (f1 p1 x None g) as [[y|e] g1]; [|reflexivity].
  destruct (f2 p2 y None g1) as [[z|e] g2]; reflexivity.
Qed.

(** X19: a [serial] of two [serial]s applies like the [serial] of all
    the layers.  Called without [rng], the combined [apply_fun] of
    [serial(serial( *layers1), serial( *layers2))] on the two parameter
    lists, one for each half, returns what the combined [apply_fun] of
    [serial( *layers1, *layers2)] returns on the two lists joined, when
    the first list has one entry for each layer of [layers1]. *)
Theorem serial_apply_fun_nested (layers1 layers2 : list layer)
    (L1 L2 Lnested Lflat : layer) (params1 params2 : list (value T))
    (inputs : ndarray T) (g : world) :
  serial layers1 = Ok L1 → serial layers2 = Ok L2 →
  serial [L1; L2] = Ok Lnested →
  serial (layers1 ++ layers2) = Ok Lflat →
  length params1 = length layers1 →
  apply_fun Lnested (VList [VList params1; VList params2]) inputs None g
  = apply_fun Lflat (VList (params1 ++ params2)) inputs None g.
Proof.
  intros H1 H2 Hn Hf Hlen.
  apply serial_ok_inv in Hn as [_ ->]. apply serial_ok_inv in Hf as [_ ->].
  apply serial_ok_inv in H1 as [_ ->]. apply serial_ok_inv in H2 as [_ ->].
  cbn [apply_fun length map].
  rewrite serial_apply_fun_pair.
  rewrite <- (length_map apply_fun (layers1 ++ layers2)), map_app.
  rewrite serial_apply_fun_split by (rewrite length_map; exact Hlen).
  rewrite !length_map. reflexivity.
Qed.
End MoreLayerFacts.

(** ** The further properties on concrete inputs *)

Lemma dense_fitting_witness :
  ∃ out,
    dense {[ "w" := mk_ndarray [3; 2] [1; 0; 0; 1; 1; 1]%Z;
             "b" := mk_ndarray [2] [100; 200]%Z ]}
      (mk_ndarray [2; 3] [1; 2; 3; 4; 5; 6]%Z) = Ok out
    ∧ shape out = [2; 2]
    ∧ wf_ndarray out
    ∧ ∀ idx j, valid_index [2] idx → j < 2 →
        get out (idx ++ [j])
        = s_add (sum_upto 3
                   (λ t, s_mul (get (mk_ndarray [2; 3] [1; 2; 3; 4; 5; 6]%Z)
                                    (idx ++ [t]))
                               (get (mk_ndarray [3; 2] [1; 0; 0; 1; 1; 1]%Z)
                                    [t; j])))
                (get (mk_ndarray [2] [100; 200]%Z) [j]).
Proof.
  apply (dense_fitting _ (mk_ndarray [3; 2] [1; 0; 0; 1; 1; 1]%Z)
           (mk_ndarray [2] [100; 200]%Z) _ [2] 3 2);
    reflexivity.
Defined.

Lemma dense_key_errors_witness :
  dense (∅ : gmap string (ndarray Z)) (mk_ndarray [2] [1; 2]%Z)
  = Raise (KeyError "w")
  ∧ dense {[ "w" := mk_ndarray [3; 2] [1; 0; 0; 1; 1; 1]%Z ]}
      (mk_ndarray [2] [1; 2]%Z)
    = Raise TypeError
  ∧ dense {[ "w" := mk_ndarray [2; 1] [1; 1]%Z ]} (mk_ndarray [2] [1; 2]%Z)
    = Raise (KeyError "b").
Proof.
  split; [|split].
  - apply (proj1 (dense_key_errors ∅ (mk_ndarray [2] [1; 2]%Z))).
    reflexivity.
  - apply (proj1 (proj2 (dense_key_errors
             {[ "w" := mk_ndarray [3; 2] [1; 0; 0; 1; 1; 1]%Z ]}
             (mk_ndarray [2] [1; 2]%Z)))
             (mk_ndarray [3; 2] [1; 0; 0; 1; 1; 1]%Z));
      reflexivity.
  - apply (proj1 (proj2 (proj2 (dense_key_errors
             {[ "w" := mk_ndarray [2; 1] [1; 1]%Z ]}
             (mk_ndarray [2] [1; 2]%Z))))
             (mk_ndarray [2; 1] [1; 1]%Z) (mk_ndarray [1] [3]%Z));
      reflexivity.
Defined.

Lemma Dense_apply_fun_is_dense_witness :
  apply_fun (Dense (key:=positive) (world:=unit) 2
               (const_init 0%Z) (const_init 0%Z))
    (VTuple [VArr (mk_ndarray [3; 2] [1; 0; 0; 1; 1; 1]%Z);
             VArr (mk_ndarray [2] [100; 200]%Z)])
    (mk_ndarray [2; 3] [1; 2; 3; 4; 5; 6]%Z) (Some 7%positive) tt
  = (dense {[ "w" := mk_ndarray [3; 2] [1; 0; 0; 1; 1; 1]%Z;
              "b" := mk_ndarray [2] [100; 200]%Z ]}
       (mk_ndarray [2; 3] [1; 2; 3; 4; 5; 6]%Z), tt).
Proof.
  apply (Dense_apply_fun_is_dense 2 (const_init 0%Z) (const_init 0%Z));
    reflexivity.
Defined.

Lemma nn_model_fitting_witness :
  ∃ y, nn_model demo_params (full [3; 2] f32_one) = Ok y
       ∧ shape y = [3; 1] ∧ wf_ndarray y.
Proof.
  apply (nn_model_fitting demo_params
           {[ "w" := full [2; 2] f32_one; "b" := full [2] f32_zero ]}
           {[ "w" := full [2; 1] f32_one; "b" := full [1] f32_zero ]}
           (full [2; 2] f32_one) (full [2] f32_zero) (full [2; 1] f32_one) (full [1] f32_zero)
           (full [3; 2] f32_one) [3] 2 2 1);
    reflexivity.
Defined.

Lemma serial_apply_is_nn_model_witness :
  apply_fun demo_model
    (two_dense_params (full [2; 2] f32_one) (full [2] f32_zero)
       (full [2; 1] f32_one) (full [1] f32_zero))
    (full [3; 2] f32_one) None 0%Z
  = (nn_model demo_params (full [3; 2] f32_one), 0%Z).
Proof.
  apply (serial_apply_is_nn_model 20 1 (const_init f32_zero) (const_init f32_zero)
           (const_init f32_zero) (const_init f32_zero) demo_model demo_params
           {[ "w" := full [2; 2] f32_one; "b" := full [2] f32_zero ]}
           {[ "w" := full [2; 1] f32_one; "b" := full [1] f32_zero ]});
    reflexivity.
Defined.

Lemma dense_params_entries_witness :
  ∃ result layer,
    dense_params counter_normal ∅ "dense1" 2 1 0%Z = (Ok result, 2%Z)
    ∧ result !! "dense1" = Some layer
    ∧ layer !! "w" = Some (mk_ndarray [2; 1] [0; 0]%Z)
    ∧ layer !! "b" = Some (mk_ndarray [1] [1]%Z)
    ∧ (∀ k, k ≠ "w" → k ≠ "b" → layer !! k = None)
    ∧ (∀ name', name' ≠ "dense1" →
         result !! name' = (∅ : gmap string (gmap string (ndarray Z))) !! name').
Proof.
  apply (proj1 (dense_params_entries counter_normal ∅ "dense1" 2 1 0%Z)
           (mk_ndarray [2; 1] [0; 0]%Z) 1%Z (mk_ndarray [1] [1]%Z) 2%Z);
    reflexivity.
Defined.

Lemma const_normal_respects_shape {T} (v : T) :
  npr_respects_shape (const_normal v).
Proof.
  intros s g _. exists (full (map Z.to_nat s) v), (g + 1)%Z.
  split; reflexivity.
Qed.

Lemma dense_params_fit_nn_model_witness :
  ∃ p g' y,
    (params1 ← dense_params (const_normal f32_zero) ∅ "dense1" 41 20;
     dense_params (const_normal f32_zero) params1 "dense2" 20 1) 0%Z = (Ok p, g')
    ∧ nn_model p (full [5; 41] f32_one) = Ok y
    ∧ shape y = [5; 1].
Proof.
  apply (dense_params_fit_nn_model (const_normal f32_zero) ∅ 41 20 1 0%Z
           (full [5; 41] f32_one) [5]);
    [apply const_normal_respects_shape | lia | lia | lia | reflexivity].
Defined.

Lemma Dense_init_fun_result_witness :
  [(-1)%Z; 41%Z] ≠ []
  ∧ [(-1)%Z; 20%Z] = removelast [(-1)%Z; 41%Z] ++ [20%Z]
  ∧ length [(-1)%Z; 20%Z] = length [(-1)%Z; 41%Z]
  ∧ ∃ W b,
      VTuple [VArr (full [41; 20] 0%Z); VArr (full [20] 0%Z)]
        = VTuple [VArr W; VArr b]
      ∧ ∃ d g1,
          last [(-1)%Z; 41%Z] = Some d
          ∧ const_init 0%Z (fst (random_split 1%positive)) [d; 20%Z] tt
            = (Ok W, g1)
          ∧ const_init 0%Z (snd (random_split 1%positive)) [20%Z] g1
            = (Ok b, tt).
Proof.
  apply (proj2 (Dense_init_fun_result 20 (const_init 0%Z) (const_init 0%Z))
           1%positive [(-1)%Z; 41%Z] tt).
  reflexivity.
Defined.

Lemma Dense_init_then_apply_witness :
  ∃ W b g',
    init_fun (Dense 20 (const_init 0%Z) (const_init 0%Z))
      1%positive [(-1)%Z; 41%Z] tt
      = (Ok ([(-1)%Z; 20%Z], VTuple [VArr W; VArr b]), g')
    ∧ ∀ (x : ndarray Z) (bs : list nat) (rng' : option positive) (g'' : unit),
        shape x = bs ++ [41] →
        ∃ y,
          apply_fun (Dense 20 (const_init 0%Z) (const_init 0%Z))
            (VTuple [VArr W; VArr b]) x rng' g'' = (Ok y, g'')
          ∧ shape y = bs ++ [20]
          ∧ wf_ndarray y.
Proof.
  apply (Dense_init_then_apply 20 41 (const_init 0%Z) (const_init 0%Z)
           1%positive [(-1)%Z] tt);
    try apply const_init_respects_shape; lia.
Defined.


Lemma serial_small_front : serial small_front = Ok small_front_model.
Proof. reflexivity. Qed.

Lemma serial_small_back : serial small_back = Ok small_back_model.
Proof. reflexivity. Qed.

Lemma serial_small_halves : serial (small_front ++ small_back) = Ok small_model.
Proof. reflexivity. Qed.

Lemma serial_init_fun_app_witness :
  init_fun small_model 1%positive [(-1)%Z; 2%Z] tt
  = (Ok ([(-1)%Z; 1%Z], small_params), tt).
Proof.
  destruct (serial_init_fun_app small_front small_back small_front_model
              small_back_model small_model 1%positive [(-1)%Z; 2%Z] tt
              serial_small_front serial_small_back serial_small_halves)
    as (_ & Hok).
  destruct (Hok [(-1)%Z; 3%Z]
              [VTuple [VArr (mk_ndarray [2; 3] [1; 1; 1; 1; 1; 1]%Z);
                       VArr (mk_ndarray [3] [5; 5; 5]%Z)];
               VTuple []] tt eq_refl) as (_ & Hboth).
  apply (Hboth [(-1)%Z; 1%Z]
           [VTuple [VArr (mk_ndarray [3; 1] [2; 2; 2]%Z);
                    VArr (mk_ndarray [1] [0]%Z)];
            VTuple []] tt).
  reflexivity.
Defined.

Lemma serial_apply_fun_app_witness :
  apply_fun small_model small_params
    (mk_ndarray [3; 2] [1; 2; 3; 4; 5; 6]%Z) None tt
  = match apply_fun small_front_model
            (VList [VTuple [VArr (mk_ndarray [2; 3] [1; 1; 1; 1; 1; 1]%Z);
                            VArr (mk_ndarray [3] [5; 5; 5]%Z)];
                    VTuple []])
            (mk_ndarray [3; 2] [1; 2; 3; 4; 5; 6]%Z) None tt with
    | (Ok inputs1, g1) =>
        apply_fun small_back_model
          (VList [VTuple [VArr (mk_ndarray [3; 1] [2; 2; 2]%Z);
                          VArr (mk_ndarray [1] [0]%Z)];
                  VTuple []]) inputs1 None g1
    | (Raise e, g1) => (Raise e, g1)
    end.
Proof.
  apply (serial_apply_fun_app small_front small_back small_front_model
           small_back_model small_model
           [VTuple [VArr (mk_ndarray [2; 3] [1; 1; 1; 1; 1; 1]%Z);
                    VArr (mk_ndarray [3] [5; 5; 5]%Z)];
            VTuple []]
           [VTuple [VArr (mk_ndarray [3; 1] [2; 2; 2]%Z);
                    VArr (mk_ndarray [1] [0]%Z)];
            VTuple []]);
    reflexivity.
Defined.

Lemma serial_apply_fun_truncates_witness :
  apply_fun small_model
    (VList [VTuple [VArr (mk_ndarray [2; 3] [1; 1; 1; 1; 1; 1]%Z);
                    VArr (mk_ndarray [3] [5; 5; 5]%Z)];
            VTuple []])
    (mk_ndarray [1; 2] [1; 2]%Z) None tt
  = (Ok (mk_ndarray [1; 3] [9; 9; 9]%Z), tt)
  ∧ apply_fun small_model (VList []) (mk_ndarray [1; 2] [1; 2]%Z) None tt
    = (Ok (mk_ndarray [1; 2] [1; 2]%Z), tt).
Proof.
  destruct (serial_apply_fun_truncates small_front small_back small_model
              [VTuple [VArr (mk_ndarray [2; 3] [1; 1; 1; 1; 1; 1]%Z);
                       VArr (mk_ndarray [3] [5; 5; 5]%Z)];
               VTuple []]
              [] (mk_ndarray [1; 2] [1; 2]%Z) tt
              serial_small_halves eq_refl) as (Hprefix & Hempty & _).
  split; [rewrite Hprefix; reflexivity | exact Hempty].
Defined.

Lemma demo_layers_map : layers_map demo_layers 41 1.
Proof.
  apply (layers_map_cons _ _ 41 20 1);
    [apply Dense_maps; try apply const_init_respects_shape; lia|].
  apply (layers_map_cons _ _ 20 20 1);
    [apply elementwise_maps; intros a; reflexivity|].
  apply (layers_map_cons _ _ 20 1 1);
    [apply Dense_maps; try apply const_init_respects_shape; lia|].
  apply (layers_map_cons _ _ 1 1 1);
    [apply elementwise_maps; intros a; reflexivity|].
  apply layers_map_nil.
Qed.

Lemma serial_layer_maps_witness : layer_maps demo_model 41 1.
Proof.
  apply (serial_layer_maps demo_layers demo_model 41 1).
  - exact demo_layers_map.
  - exact serial_demo_layers.
Defined.

Lemma serial_init_fun_entries_witness :
  ∃ ps,
    small_params = VList ps
    ∧ length ps = length small_layers
    ∧ serial_init_steps small_layers 1%positive [(-1)%Z; 2%Z] tt ps
        [(-1)%Z; 1%Z] tt.
Proof.
  apply (proj1 (serial_init_fun_entries small_layers small_model 1%positive
                  [(-1)%Z; 2%Z] tt [(-1)%Z; 1%Z] small_params tt
                  serial_small_layers)).
  reflexivity.
Defined.

Lemma Dense_apply_fun_rows_independent_witness :
  ∃ y y',
    apply_fun (Dense (key:=positive) (world:=unit) 2
                 (const_init 0%Z) (const_init 0%Z))
      (VTuple [VArr (mk_ndarray [3; 2] [1; 0; 0; 1; 1; 1]%Z);
               VArr (mk_ndarray [2] [100; 200]%Z)])
      (mk_ndarray [2; 3] [1; 2; 3; 4; 5; 6]%Z) None tt = (Ok y, tt)
    ∧ apply_fun (Dense (key:=positive) (world:=unit) 2
                   (const_init 0%Z) (const_init 0%Z))
        (VTuple [VArr (mk_ndarray [3; 2] [1; 0; 0; 1; 1; 1]%Z);
                 VArr (mk_ndarray [2] [100; 200]%Z)])
        (mk_ndarray [2; 3] [1; 2; 3; 7; 8; 9]%Z) None tt = (Ok y', tt)
    ∧ ∀ j, j < 2 → get y [0; j] = get y' [0; j].
Proof.
  apply (Dense_apply_fun_rows_independent 2 (const_init 0%Z) (const_init 0%Z)
           (mk_ndarray [3; 2] [1; 0; 0; 1; 1; 1]%Z)
           (mk_ndarray [2] [100; 200]%Z)
           (mk_ndarray [2; 3] [1; 2; 3; 4; 5; 6]%Z)
           (mk_ndarray [2; 3] [1; 2; 3; 7; 8; 9]%Z)
           [2] 3 2 None tt [0]);
    try reflexivity.
  - repeat constructor.
  - intros [|[|[|t]]] Ht; try reflexivity. lia.
Defined.

Lemma serial_small_nested :
  serial [small_front_model; small_back_model] = Ok small_nested_model.
Proof. reflexivity. Qed.

Lemma serial_apply_fun_nested_witness :
  apply_fun small_nested_model
    (VList [VList [VTuple [VArr (mk_ndarray [2; 3] [1; 1; 1; 1; 1; 1]%Z);
                           VArr (mk_ndarray [3] [5; 5; 5]%Z)];
                   VTuple []];
            VList [VTuple [VArr (mk_ndarray [3; 1] [2; 2; 2]%Z);
                           VArr (mk_ndarray [1] [0]%Z)];
                   VTuple []]])
    (mk_ndarray [3; 2] [1; 2; 3; 4; 5; 6]%Z) None tt
  = apply_fun small_model small_params
      (mk_ndarray [3; 2] [1; 2; 3; 4; 5; 6]%Z) None tt.
Proof.
  apply (serial_apply_fun_nested small_front small_back small_front_model
           small_back_model small_nested_model small_model
           [VTuple [VArr (mk_ndarray [2; 3] [1; 1; 1; 1; 1; 1]%Z);
                    VArr (mk_ndarray [3] [5; 5; 5]%Z)];
            VTuple []]
           [VTuple [VArr (mk_ndarray [3; 1] [2; 2; 2]%Z);
                    VArr (mk_ndarray [1] [0]%Z)];
            VTuple []]);
    reflexivity.
Defined.
